(** * DownDetector: a shallow embedding of [monitor.py] and [config.py]

    The development follows the two source files:
    - Python [str] values are Rocq [string]s; [in] on strings is [contains],
      [str.lower] is [lower] (ASCII letters are folded, every other
      character is kept as it is);
    - the [site_states] dictionary is a [gmap string string];
    - the effects of the program (console output, sleeping, the browser,
      SMTP and the Slack webhook) are recorded as a list of [event]s written
      by a small state-and-exception monad [M];
    - what the outside world answers (the fetched page, the outcome of an
      SMTP session or of a webhook request) is an explicit [World] argument. *)

From Stdlib Require Import ZArith Lia Ascii String DecimalString.
From stdpp Require Import gmap strings list fin_maps.

Open Scope string_scope.

(* ================================================================= *)
(** ** Python strings *)

Module PyStr.

(** Line feed, written [\n] in the source. *)
Definition nl : string := String (ascii_of_nat 10) EmptyString.

Definition is_upper (c : ascii) : bool :=
  let n := nat_of_ascii c in (65 <=? n)%nat && (n <=? 90)%nat.

Definition lower_char (c : ascii) : ascii :=
  if is_upper c then ascii_of_nat (nat_of_ascii c + 32) else c.

(** [s.lower()] *)
Fixpoint lower (s : string) : string :=
  match s with
  | EmptyString => EmptyString
  | String c s' => String (lower_char c) (lower s')
  end.

(** [needle in hay] *)
Fixpoint contains (needle hay : string) : bool :=
  if String.prefix needle hay then true
  else match hay with
       | EmptyString => false
       | String _ hay' => contains needle hay'
       end.

(** [sep.join(parts)] *)
Fixpoint join (sep : string) (parts : list string) : string :=
  match parts with
  | [] => ""
  | [p] => p
  | p :: rest => p ++ sep ++ join sep rest
  end.

(** Python truthiness of a [str]: [bool(s)]. *)
Definition truthy (s : string) : bool :=
  match s with EmptyString => false | _ => true end.

End PyStr.

Import PyStr.

(* ================================================================= *)
(** ** Exceptions, observable events and the outside world *)

(** The exception classes the two files raise, catch or let through.
    [KeyboardInterrupt] and [SystemExit] derive from [BaseException] only,
    so [except Exception] does not catch them. *)
Inductive exn : Type :=
| WebDriverException (msg : string)
| KeyError (key : string)
| ValueError (msg : string)
| OSError (msg : string)
| SMTPAuthenticationError
| SMTPException (msg : string)
| Timeout
| RequestException (msg : string)
| KeyboardInterrupt
| SystemExit (code : Z).

Definition is_Exception (e : exn) : bool :=
  match e with
  | KeyboardInterrupt | SystemExit _ => false
  | _ => true
  end.

(** [MIMEText(body)] with the three headers the source sets. *)
Record MIMEText : Type := {
  mime_subject : string;
  mime_from : string;
  mime_to : string;
  mime_body : string
}.

(** One constructor per [print] call of the two files. *)
Inductive log_line : Type :=
| SlackNotSetWarning
| ConfigurationError (errors : list string)
| Banner (targets receivers : nat) (slack : bool) (check_delay loop_delay : Z)
| CycleHeader
| Checking (name : string)
| Blocked
| UnknownMode (mode : string)
| CurrentStatus (current_status : string)
| StatusChange (last_status current_status : string)
| Error (e : exn)
| WaitingNextCycle (loop_delay : Z)
| StoppedByUser
| ClosingBrowser
| Goodbye
| EmailSent (recipients : nat)
| EmailAuthFailed
| EmailSmtpFailed (msg : string)
| EmailFailed (e : exn)
| SlackSent
| SlackError (status_code : Z) (text : string)
| SlackTimedOut
| SlackFailed (msg : string).

(** What the program does to the outside world, in order. *)
Inductive event : Type :=
| Print (l : log_line)
| Sleep (seconds : Z)
| SleepUniform (lo hi : Z)
| CreateBrowser
| DriverGet (url : string)
| DriverQuit
| SmtpSession (login password : string) (msg : MIMEText)
| SlackPost (webhook_url : string) (text : string).

Inductive result (A : Type) : Type :=
| Returned (a : A)
| Raised (e : exn).
Arguments Returned {A} a.
Arguments Raised {A} e.

(** Outcome of the [smtplib.SMTP_SSL] session of [send_email_alert]. *)
Inductive smtp_outcome : Type :=
| Delivered
| AuthenticationRejected
| SmtpFailure (msg : string)
| ConnectionFailure (msg : string).

(** Outcome of [requests.post]: a response, or one of the exceptions of the
    [requests.exceptions] hierarchy, whose root is [RequestException]. *)
Inductive slack_outcome : Type :=
| Response (status_code : Z) (text : string)
| TimedOut
| RequestFailed (msg : string).

(** What the world answers during the check of one target. *)
Record World : Type := {
  driver_get : result unit;
  driver_page_source : result string;
  driver_title : result string;
  smtp : smtp_outcome;
  slack : slack_outcome
}.

(* ================================================================= *)
(** ** The monad of the monitoring code

    A computation reads and updates the [site_states] dictionary, writes
    events, and ends by returning, by a [continue] of the enclosing loop, by
    an exception, or not at all within the observed number of cycles. *)

Inductive ctl (A : Type) : Type :=
| Ret (a : A)
| Continue
| Raise (e : exn)
| Unfinished.
Arguments Ret {A} a.
Arguments Continue {A}.
Arguments Raise {A} e.
Arguments Unfinished {A}.

Definition M (A : Type) : Type :=
  gmap string string -> ctl A * gmap string string * list event.

Definition ret {A} (a : A) : M A := fun s => (Ret a, s, []).

Definition bind {A B} (m : M A) (k : A -> M B) : M B := fun s =>
  match m s with
  | (Ret a, s', ev) => let '(r, s'', ev') := k a s' in (r, s'', (ev ++ ev')%list)
  | (Continue, s', ev) => (Continue, s', ev)
  | (Raise e, s', ev) => (Raise e, s', ev)
  | (Unfinished, s', ev) => (Unfinished, s', ev)
  end.

Declare Scope py_scope.
Delimit Scope py_scope with py.
Notation "x <- m ;; k" := (bind m (fun x => k))
  (at level 100, m at next level, right associativity) : py_scope.
Notation "m ;; k" := (bind m (fun _ => k))
  (at level 100, right associativity) : py_scope.
Open Scope py_scope.

Definition emit (e : event) : M unit := fun s => (Ret tt, s, [e]).
Definition print (l : log_line) : M unit := emit (Print l).
Definition raise {A} (e : exn) : M A := fun s => (Raise e, s, []).
Definition continue {A} : M A := fun s => (Continue, s, []).
Definition unfinished {A} : M A := fun s => (Unfinished, s, []).

Definition lift {A} (r : result A) : M A :=
  match r with
  | Returned a => ret a
  | Raised e => raise e
  end.

(** [site_states[url]] *)
Definition get_state (url : string) : M string := fun s =>
  match s !! url with
  | Some v => (Ret v, s, [])
  | None => (Raise (KeyError url), s, [])
  end.

(** [site_states[url] = v] *)
Definition set_state (url v : string) : M unit := fun s =>
  (Ret tt, <[url := v]> s, []).

(** [try: body  except ...: handlers]. [handlers e] is [None] when no
    [except] clause matches [e]. *)
Definition try_except {A} (body : M A) (handlers : exn -> option (M A))
  : M A := fun s =>
  match body s with
  | (Raise e, s', ev) =>
      match handlers e with
      | Some h => let '(r, s'', ev') := h s' in (r, s'', (ev ++ ev')%list)
      | None => (Raise e, s', ev)
      end
  | other => other
  end.

(** [try: body  finally: final] *)
Definition try_finally {A} (body : M A) (final : M unit) : M A := fun s =>
  match body s with
  | (Unfinished, s', ev) => (Unfinished, s', ev)
  | (r, s', ev) =>
      match final s' with
      | (Ret _, s'', ev') => (r, s'', (ev ++ ev')%list)
      | (Continue, s'', ev') => (Continue, s'', (ev ++ ev')%list)
      | (Raise e, s'', ev') => (Raise e, s'', (ev ++ ev')%list)
      | (Unfinished, s'', ev') => (Unfinished, s'', (ev ++ ev')%list)
      end
  end.

(** The end of a loop body: a [continue] resumes with the next iteration. *)
Definition end_of_iteration (body : M unit) : M unit := fun s =>
  match body s with
  | (Continue, s', ev) => (Ret tt, s', ev)
  | other => other
  end.

(** [time.sleep(seconds)] raises [ValueError] on a negative argument. *)
Definition time_sleep (seconds : Z) : M unit :=
  if (seconds <? 0)%Z then raise (ValueError "sleep length must be non-negative")
  else emit (Sleep seconds).

(* ================================================================= *)
(** ** Built-ins that [config.py] uses

    As for [lower], only ASCII characters are classified: the white space
    of [strip] and of [int] is the ASCII white space of Python's [str]
    (codes 9 to 13 and 28 to 32), and the digits of [int] are "0" to "9". *)

Module Py.

Definition is_space (c : ascii) : bool :=
  let n := nat_of_ascii c in
  ((9 <=? n)%nat && (n <=? 13)%nat) || ((28 <=? n)%nat && (n <=? 32)%nat).

Fixpoint lstrip (s : string) : string :=
  match s with
  | EmptyString => EmptyString
  | String c s' => if is_space c then lstrip s' else s
  end.

Fixpoint rstrip (s : string) : string :=
  match s with
  | EmptyString => EmptyString
  | String c s' =>
      match rstrip s' with
      | EmptyString => if is_space c then EmptyString else String c EmptyString
      | r => String c r
      end
  end.

(** [s.strip()] *)
Definition strip (s : string) : string := rstrip (lstrip s).

(** [s.split(sep)] for a separator of one character. *)
Fixpoint split (sep : ascii) (s : string) : list string :=
  match s with
  | EmptyString => [EmptyString]
  | String c s' =>
      if Ascii.eqb c sep then EmptyString :: split sep s'
      else match split sep s' with
           | piece :: pieces => String c piece :: pieces
           | [] => [String c EmptyString]
           end
  end.

Definition digit_value (c : ascii) : option Z :=
  let n := nat_of_ascii c in
  if (48 <=? n)%nat && (n <=? 57)%nat then Some (Z.of_nat n - 48)%Z else None.

(** The digits of a decimal literal, with single underscores allowed
    between two digits. [after_digit] tells whether the previous character
    was a digit. *)
Fixpoint literal (acc : Z) (after_digit : bool) (s : string) : option Z :=
  match s with
  | EmptyString => if after_digit then Some acc else None
  | String c s' =>
      match digit_value c with
      | Some v => literal (10 * acc + v)%Z true s'
      | None =>
          if Ascii.eqb c "_" && after_digit then literal acc false s'
          else None
      end
  end.

Fixpoint count_digits (s : string) : nat :=
  match s with
  | EmptyString => 0
  | String c s' =>
      match digit_value c with
      | Some _ => S (count_digits s')
      | None => count_digits s'
      end
  end.

(** [sys.get_int_max_str_digits()], by default. *)
Definition int_max_str_digits : nat := 4300.

(** [int(s)] for a [str]; [None] stands for [ValueError]. *)
Definition int (s : string) : option Z :=
  let s := strip s in
  if (int_max_str_digits <? count_digits s)%nat then None
  else match s with
       | String "-" s' => option_map Z.opp (literal 0 false s')
       | String "+" s' => literal 0 false s'
       | _ => literal 0 false s
       end.

(** [str(n)] for the result of [len]. *)
Definition str_of_nat (n : nat) : string :=
  NilZero.string_of_uint (Nat.to_uint n).

(** [str(b)] for a [bool]. *)
Definition str_of_bool (b : bool) : string :=
  if b then "True" else "False".

(** [os.getenv(key, default)] *)
Definition getenv (environ : gmap string string) (key default : string)
  : string :=
  match environ !! key with
  | Some value => value
  | None => default
  end.

(** [load_dotenv(override=True)]: every variable that the [.env] file
    gives a value is written to [os.environ], over the value it had. *)
Definition load_dotenv (dotenv environ : gmap string string)
  : gmap string string :=
  dotenv ∪ environ.

End Py.

(* ================================================================= *)
(** ** [config.py] *)

Module Config.

Record t : Type := {
  email_sender : string;
  email_password : string;
  email_receivers : list string;
  slack_webhook_url : string;
  check_delay : Z;
  loop_delay : Z
}.

(** [Config()]: [dotenv] is what the [.env] file defines, [environ] the
    environment of the process. *)
Definition __init__ (dotenv environ : gmap string string) : result t :=
  let environ := Py.load_dotenv dotenv environ in
  let email_sender := Py.getenv environ "EMAIL_SENDER" "" in
  let email_password := Py.getenv environ "EMAIL_PASSWORD" "" in
  let receivers_str := Py.getenv environ "EMAIL_RECEIVERS" "" in
  let email_receivers :=
    List.map Py.strip
      (List.filter (fun email => truthy (Py.strip email))
         (Py.split "," receivers_str)) in
  let slack_webhook_url := Py.getenv environ "SLACK_WEBHOOK_URL" "" in
  match Py.int (Py.getenv environ "CHECK_DELAY_BETWEEN_SITES" "10") with
  | None => Raised (ValueError "invalid literal for int() with base 10")
  | Some check_delay =>
      match Py.int (Py.getenv environ "LOOP_DELAY" "60") with
      | None => Raised (ValueError "invalid literal for int() with base 10")
      | Some loop_delay =>
          Returned {| email_sender := email_sender;
                      email_password := email_password;
                      email_receivers := email_receivers;
                      slack_webhook_url := slack_webhook_url;
                      check_delay := check_delay;
                      loop_delay := loop_delay |}
      end
  end.

Definition validate (self : t) : M bool :=
  let errors : list string := [] in
  let errors :=
    if negb (truthy (email_sender self))
    then (errors ++ ["EMAIL_SENDER is not set"])%list else errors in
  let errors :=
    if negb (truthy (email_password self))
    then (errors ++ ["EMAIL_PASSWORD is not set"])%list else errors in
  let errors :=
    match email_receivers self with
    | [] => (errors ++ ["EMAIL_RECEIVERS is not set or empty"])%list
    | _ => errors
    end in
  (if negb (truthy (slack_webhook_url self))
   then print SlackNotSetWarning else ret tt) ;;
  (match errors with
   | [] => ret tt
   | _ => print (ConfigurationError errors) ;; raise (SystemExit 1)
   end) ;;
  ret true.

Definition slack_enabled (self : t) : bool :=
  truthy (slack_webhook_url self).

Definition __repr__ (self : t) : string :=
  "Config(" ++
  "email_sender='" ++ email_sender self ++ "', " ++
  "receivers=" ++ Py.str_of_nat (length (email_receivers self)) ++ ", " ++
  "slack_enabled=" ++ Py.str_of_bool (slack_enabled self) ++ ")".

End Config.

(** An entry of [TARGETS]; [good_keywords] is an optional key. *)
Record Target : Type := {
  name : string;
  url : string;
  mode : string;
  good_keywords : option (list string)
}.

Definition TARGETS : list Target := [
  {| name := "Internet Archive";
     url := "https://downdetector.com/status/internetarchive/";
     mode := "downdetector";
     good_keywords := None |};
  {| name := "Roblox";
     url := "https://downdetector.com/status/roblox/";
     mode := "downdetector";
     good_keywords := None |};
  {| name := "OpenAI API";
     url := "https://status.openai.com/";
     mode := "generic";
     good_keywords := Some ["all systems operational"; "operational"] |}
].

(* ================================================================= *)
(** ** Notification services ([monitor.py], lines 39-153) *)

Definition slack_text (site_name status url : string) : string :=
  "🚨 *Monitor Alert: " ++ site_name ++ "*" ++ nl ++
  "*Status:* " ++ status ++ nl ++
  "<" ++ url ++ "|View Status Page>".

(** [requests.post(config.slack_webhook_url, json=payload, timeout=10)] *)
Definition requests_post (webhook_url text : string) (w : World)
  : M (Z * string) :=
  emit (SlackPost webhook_url text) ;;
  match slack w with
  | Response status_code text => ret (status_code, text)
  | TimedOut => raise Timeout
  | RequestFailed msg => raise (RequestException msg)
  end.

Definition send_slack_alert (config : Config.t)
    (site_name status url : string) (w : World) : M unit :=
  if negb (Config.slack_enabled config) then ret tt
  else
    let payload := slack_text site_name status url in
    try_except
      (response <- requests_post (Config.slack_webhook_url config) payload w ;;
       if (fst response =? 200)%Z then print SlackSent
       else print (SlackError (fst response) (snd response)))
      (fun e =>
         match e with
         | Timeout => Some (print SlackTimedOut)
         | RequestException msg => Some (print (SlackFailed msg))
         | _ => None
         end).

Definition email_message (config : Config.t)
    (site_name status url extra_info : string) : MIMEText :=
  let subject := "ALERT: " ++ site_name ++ " is " ++ status in
  let body :=
    "Monitor Alert!" ++ nl ++ nl ++
    "Site: " ++ site_name ++ nl ++
    "New Status: " ++ status ++ nl ++
    "Link: " ++ url ++ nl ++ nl ++
    extra_info in
  {| mime_subject := subject;
     mime_from := Config.email_sender config;
     mime_to := join ", " (Config.email_receivers config);
     mime_body := body |}.

(** The [with smtplib.SMTP_SSL(...)] block: login, then [send_message]. *)
Definition smtp_session (config : Config.t) (msg : MIMEText) (w : World)
  : M unit :=
  emit (SmtpSession (Config.email_sender config)
                    (Config.email_password config) msg) ;;
  match smtp w with
  | Delivered => ret tt
  | AuthenticationRejected => raise SMTPAuthenticationError
  | SmtpFailure m => raise (SMTPException m)
  | ConnectionFailure m => raise (OSError m)
  end.

Definition send_email_alert (config : Config.t)
    (site_name status url extra_info : string) (w : World) : M unit :=
  let msg := email_message config site_name status url extra_info in
  try_except
    (smtp_session config msg w ;;
     print (EmailSent (length (Config.email_receivers config))))
    (fun e =>
       match e with
       | SMTPAuthenticationError => Some (print EmailAuthFailed)
       | SMTPException m => Some (print (EmailSmtpFailed m))
       | _ => if is_Exception e then Some (print (EmailFailed e)) else None
       end).

(* ================================================================= *)
(** ** Status checking functions ([monitor.py], lines 160-220) *)

Definition check_downdetector (page_source : string) : string :=
  if contains "indicate no current problems" page_source then "OPERATIONAL"
  else if contains "possible problems" page_source then "POSSIBLE ISSUES"
  else if contains "indicate problems" page_source then "OUTAGE DETECTED"
  else "SUSPICIOUS / UNKNOWN".

(** The [for] loop of [check_generic] returns from inside its body at the
    first keyword that matches. *)
Fixpoint check_generic (page_source : string) (good_keywords : list string)
  : string :=
  match good_keywords with
  | [] => "POTENTIAL OUTAGE"
  | keyword :: rest =>
      if contains (lower keyword) page_source then "OPERATIONAL"
      else check_generic page_source rest
  end.

(* ================================================================= *)
(** ** Main monitoring loop ([monitor.py], lines 270-400) *)

(** The body of [for target in TARGETS:], lines 323-386. *)
Definition check_target (config : Config.t) (target : Target) (w : World)
  : M unit :=
  let url := url target in
  let name := name target in
  let mode := mode target in
  print (Checking name) ;;
  try_except
    (emit (DriverGet url) ;;
     lift (driver_get w) ;;
     emit (SleepUniform 5 8) ;;
     source <- lift (driver_page_source w) ;;
     let page_source := lower source in
     title <- lift (driver_title w) ;;
     (if contains "just a moment" (lower title)
      then print Blocked ;; continue
      else ret tt) ;;
     current_status <-
       (if String.eqb mode "downdetector"
        then ret (check_downdetector page_source)
        else if String.eqb mode "generic"
        then
          let keywords := default ["operational"] (good_keywords target) in
          ret (check_generic page_source keywords)
        else print (UnknownMode mode) ;; continue) ;;
     print (CurrentStatus current_status) ;;
     last_status <- get_state url ;;
     if negb (String.eqb current_status last_status)
     then
       (if negb (String.eqb last_status "initial")
        then
          print (StatusChange last_status current_status) ;;
          send_email_alert config name current_status url "" w ;;
          send_slack_alert config name current_status url w
        else ret tt) ;;
       set_state url current_status
     else ret tt)
    (fun e => if is_Exception e then Some (print (Error e)) else None) ;;
  time_sleep (Config.check_delay config).

(** [for target in TARGETS:]; the [k]-th check of the run is answered by
    [ws k]. *)
Fixpoint for_targets (config : Config.t) (targets : list Target)
    (ws : nat -> World) (k : nat) : M unit :=
  match targets with
  | [] => ret tt
  | target :: rest =>
      end_of_iteration (check_target config target (ws k)) ;;
      for_targets config rest ws (S k)
  end.

(** [while True:], observed for [cycles] cycles. *)
Fixpoint monitoring_loop (cycles : nat) (config : Config.t)
    (targets : list Target) (ws : nat -> World) (k : nat) : M unit :=
  match cycles with
  | O => unfinished
  | S cycles' =>
      print CycleHeader ;;
      for_targets config targets ws k ;;
      print (WaitingNextCycle (Config.loop_delay config)) ;;
      time_sleep (Config.loop_delay config) ;;
      monitoring_loop cycles' config targets ws (k + length targets)
  end.

(** [site_states = {target['url']: "initial" for target in TARGETS}] *)
Definition initial_site_states (targets : list Target) : gmap string string :=
  fold_left (fun d target => <[url target := "initial"]> d) targets ∅.

Definition init_site_states (targets : list Target) : M unit := fun _ =>
  (Ret tt, initial_site_states targets, []).

Definition monitor (config : Config.t) (targets : list Target)
    (ws : nat -> World) (cycles : nat) : M unit :=
  Config.validate config ;;
  init_site_states targets ;;
  print (Banner (length targets) (length (Config.email_receivers config))
                (Config.slack_enabled config)
                (Config.check_delay config) (Config.loop_delay config)) ;;
  emit CreateBrowser ;;
  try_finally
    (try_except
       (monitoring_loop cycles config targets ws 0)
       (fun e =>
          match e with
          | KeyboardInterrupt => Some (print StoppedByUser)
          | _ => None
          end))
    (print ClosingBrowser ;; emit DriverQuit ;; print Goodbye).

(** [start_monitoring()], for the configuration [config] that [Config()]
    loaded from the environment. *)
Definition start_monitoring (config : Config.t) (ws : nat -> World)
    (cycles : nat) : M unit :=
  monitor config TARGETS ws cycles.

(* ================================================================= *)
(** ** Observations on a run *)

Definition outcome {A} (r : ctl A * gmap string string * list event) : ctl A :=
  fst (fst r).
Definition store {A} (r : ctl A * gmap string string * list event)
  : gmap string string := snd (fst r).
Definition events {A} (r : ctl A * gmap string string * list event)
  : list event := snd r.

(** A notification is an attempt to deliver through one of the channels. *)
Definition is_notification (e : event) : bool :=
  match e with
  | SmtpSession _ _ _ | SlackPost _ _ => true
  | _ => false
  end.

Definition notifications (ev : list event) : list event :=
  List.filter is_notification ev.

(** The status that lines 330-357 compute for a target, when they compute
    one: the page was fetched, it is no challenge page and the mode is
    known. *)
Definition classification (target : Target) (w : World) : option string :=
  match driver_get w, driver_page_source w, driver_title w with
  | Returned _, Returned source, Returned title =>
      if contains "just a moment" (lower title) then None
      else if String.eqb (mode target) "downdetector"
      then Some (check_downdetector (lower source))
      else if String.eqb (mode target) "generic"
      then Some (check_generic (lower source)
                   (default ["operational"] (good_keywords target)))
      else None
  | _, _, _ => None
  end.


(** The line that [send_email_alert] prints for each outcome of the SMTP
    session. *)
Definition email_log (config : Config.t) (w : World) : log_line :=
  match smtp w with
  | Delivered => EmailSent (length (Config.email_receivers config))
  | AuthenticationRejected => EmailAuthFailed
  | SmtpFailure m => EmailSmtpFailed m
  | ConnectionFailure m => EmailFailed (OSError m)
  end.

(** The line that [send_slack_alert] prints for each outcome of the request. *)
Definition slack_log (w : World) : log_line :=
  match slack w with
  | Response status_code text =>
      if (status_code =? 200)%Z then SlackSent else SlackError status_code text
  | TimedOut => SlackTimedOut
  | RequestFailed m => SlackFailed m
  end.

Definition email_events (config : Config.t) (site_name status url : string)
    (w : World) : list event :=
  [SmtpSession (Config.email_sender config) (Config.email_password config)
     (email_message config site_name status url "");
   Print (email_log config w)].

Definition slack_events (config : Config.t) (site_name status url : string)
    (w : World) : list event :=
  if Config.slack_enabled config
  then [SlackPost (Config.slack_webhook_url config)
          (slack_text site_name status url);
        Print (slack_log w)]
  else [].

(** What [time.sleep(config.check_delay)] leaves behind. *)
Definition sleep_outcome (seconds : Z) : ctl unit :=
  if (seconds <? 0)%Z then Raise (ValueError "sleep length must be non-negative")
  else Ret tt.

Definition sleep_events (seconds : Z) : list event :=
  if (seconds <? 0)%Z then [] else [Sleep seconds].

(** The events up to and including the fetch. *)
Definition fetch_events (target : Target) (w : World) : list event :=
  match driver_get w, driver_page_source w, driver_title w with
  | Raised e, _, _ => [DriverGet (url target)]
  | Returned _, _, _ => [DriverGet (url target); SleepUniform 5 8]
  end.

(** How the check ends when no status is computed. *)
Definition skip_log (target : Target) (w : World) : log_line :=
  match driver_get w, driver_page_source w, driver_title w with
  | Raised e, _, _ => Error e
  | Returned _, Raised e, _ => Error e
  | Returned _, Returned _, Raised e => Error e
  | Returned _, Returned _, Returned title =>
      if contains "just a moment" (lower title) then Blocked
      else UnknownMode (mode target)
  end.

(** The check was skipped by one of the two [continue] statements. *)
Definition skipped_by_continue (target : Target) (w : World) : bool :=
  match driver_get w, driver_page_source w, driver_title w with
  | Returned _, Returned _, Returned title =>
      contains "just a moment" (lower title) ||
      negb (String.eqb (mode target) "downdetector" ||
            String.eqb (mode target) "generic")
  | _, _, _ => false
  end.

(** The fetch raised something that [except Exception] does not catch. *)
Definition fetch_interrupt (w : World) : option exn :=
  match driver_get w, driver_page_source w, driver_title w with
  | Raised e, _, _ => if is_Exception e then None else Some e
  | Returned _, Raised e, _ => if is_Exception e then None else Some e
  | Returned _, Returned _, Raised e =>
      if is_Exception e then None else Some e
  | _, _, _ => None
  end.

(** The events of a check that computes the status [cur]. *)
Definition classified_events (target : Target) (cur : string) : list event :=
  [Print (Checking (name target)); DriverGet (url target);
   SleepUniform 5 8; Print (CurrentStatus cur)].



Definition unknown_mode (target : Target) : Prop :=
  mode target <> "downdetector" /\ mode target <> "generic".

(** What a notification says: every text field of the e-mail or of the
    Slack payload. *)
Definition notification_text (e : event) : list string :=
  match e with
  | SmtpSession _ _ msg =>
      [mime_subject msg; mime_from msg; mime_to msg; mime_body msg]
  | SlackPost _ text => [text]
  | _ => []
  end.

Definition is_status_change (e : event) : bool :=
  match e with
  | Print (StatusChange _ _) => true
  | _ => false
  end.

Definition is_current_status (e : event) : bool :=
  match e with
  | Print (CurrentStatus _) => true
  | _ => false
  end.

(** A required e-mail setting is empty. *)
Definition email_settings_missing (config : Config.t) : Prop :=
  Config.email_sender config = "" \/
  Config.email_password config = "" \/
  Config.email_receivers config = [].

(* ================================================================= *)
(** ** Startup from the environment, and further observations *)

(** [start_monitoring()] as the entry point calls it: the configuration is
    read from the environment first. *)
Definition start_monitoring_env (dotenv environ : gmap string string)
    (ws : nat -> World) (cycles : nat) : M unit :=
  match Config.__init__ dotenv environ with
  | Raised e => raise e
  | Returned config => start_monitoring config ws cycles
  end.



(** The values that [site_states] can hold. *)
Definition status_values : list string :=
  ["initial"; "OPERATIONAL"; "POSSIBLE ISSUES"; "OUTAGE DETECTED";
   "SUSPICIOUS / UNKNOWN"; "POTENTIAL OUTAGE"].

(** The receivers as [Config.__init__] reads them from one string. *)
Definition parse_receivers (receivers_str : string) : list string :=
  List.map Py.strip
    (List.filter (fun email => truthy (Py.strip email))
       (Py.split "," receivers_str)).




(** The whole result of [check_target], case by case: skipped by a
    [continue], interrupted during the fetch, failed fetch, or a status
    compared with the stored one. *)
Definition check_result (config : Config.t) (target : Target) (w : World)
    (st : gmap string string)
  : ctl unit * gmap string string * list event :=
  let d := Config.check_delay config in
  if skipped_by_continue target w
  then (Continue, st,
        [Print (Checking (name target)); DriverGet (url target);
         SleepUniform 5 8; Print (skip_log target w)])
  else
    match fetch_interrupt w with
    | Some e => (Raise e, st,
                 Print (Checking (name target)) :: fetch_events target w)
    | None =>
        match classification target w with
        | None =>
            (sleep_outcome d, st,
             ((Print (Checking (name target)) :: fetch_events target w) ++
              [Print (skip_log target w)] ++ sleep_events d)%list)
        | Some cur =>
            match st !! url target with
            | None =>
                (sleep_outcome d, st,
                 (classified_events target cur ++
                  [Print (Error (KeyError (url target)))] ++
                  sleep_events d)%list)
            | Some last =>
                if String.eqb cur last
                then (sleep_outcome d, st,
                      (classified_events target cur ++ sleep_events d)%list)
                else if String.eqb last "initial"
                then (sleep_outcome d, <[url target := cur]> st,
                      (classified_events target cur ++ sleep_events d)%list)
                else (sleep_outcome d, <[url target := cur]> st,
                      (classified_events target cur ++
                       [Print (StatusChange last cur)] ++
                       email_events config (name target) cur (url target) w ++
                       slack_events config (name target) cur (url target) w ++
                       sleep_events d)%list)
            end
        end
    end.

(** How [start_monitoring] ends, given how its [while] loop ended: a
    [KeyboardInterrupt] is caught, everything else passes through the
    [finally] clause. *)
Definition final_outcome (c : ctl unit) : ctl unit :=
  match c with
  | Raise KeyboardInterrupt => Ret tt
  | _ => c
  end.

Definition shutdown_events (c : ctl unit) : list event :=
  match c with
  | Unfinished => []
  | Raise KeyboardInterrupt =>
      [Print StoppedByUser; Print ClosingBrowser; DriverQuit; Print Goodbye]
  | _ => [Print ClosingBrowser; DriverQuit; Print Goodbye]
  end.

(** What [start_monitoring] prints and does before the loop. *)
Definition startup_events (config : Config.t) (targets : list Target)
  : list event :=
  ((if truthy (Config.slack_webhook_url config) then []
    else [Print SlackNotSetWarning]) ++
   [Print (Banner (length targets) (length (Config.email_receivers config))
             (Config.slack_enabled config)
             (Config.check_delay config) (Config.loop_delay config));
    CreateBrowser])%list.

(* ================================================================= *)
(** ** Sample inputs *)

Module Samples.

Definition config : Config.t :=
  {| Config.email_sender := "monitor@example.com";
     Config.email_password := "app-password";
     Config.email_receivers := ["ops@example.com"; "oncall@example.com"];
     Config.slack_webhook_url := "https://hooks.slack.com/services/T/B/X";
     Config.check_delay := 10;
     Config.loop_delay := 60 |}.

Definition config_no_slack : Config.t :=
  {| Config.email_sender := "monitor@example.com";
     Config.email_password := "app-password";
     Config.email_receivers := ["ops@example.com"];
     Config.slack_webhook_url := "";
     Config.check_delay := 10;
     Config.loop_delay := 60 |}.

Definition archive : Target :=
  {| name := "Internet Archive";
     url := "https://downdetector.com/status/internetarchive/";
     mode := "downdetector";
     good_keywords := None |}.

Definition page (source title : string) (so : smtp_outcome)
    (sl : slack_outcome) : World :=
  {| driver_get := Returned tt;
     driver_page_source := Returned source;
     driver_title := Returned title;
     smtp := so;
     slack := sl |}.

Definition outage : World :=
  page "User reports indicate problems at Internet Archive"
       "Internet Archive down?" Delivered (Response 200 "ok").

End Samples.

Module Keyword.

Definition status_page (good_keywords : option (list string)) : Target :=
  {| name := "OpenAI API";
     url := "https://status.openai.com/";
     mode := "generic";
     good_keywords := good_keywords |}.

End Keyword.

Module Scenario.

Definition ws (k : nat) : World :=
  match k with
  | 0%nat => Samples.page "User reports indicate no current problems"
               "Internet Archive" Delivered (Response 200 "ok")
  | 2%nat =>
      {| driver_get := Raised (WebDriverException "net::ERR_TIMED_OUT");
         driver_page_source := Returned "";
         driver_title := Returned "";
         smtp := Delivered;
         slack := Response 200 "ok" |}
  | _ => Samples.outage
  end.

Definition run : ctl unit * gmap string string * list event :=
  monitoring_loop 4 Samples.config [Samples.archive] ws 0
    (initial_site_states [Samples.archive]).

End Scenario.

Module Runs.


Definition ctrl_c : World :=
  {| driver_get := Raised KeyboardInterrupt;
     driver_page_source := Returned "";
     driver_title := Returned "";
     smtp := Delivered;
     slack := Response 200 "ok" |}.

(** Ctrl+C arrives during the fifth fetch. *)
Definition interrupted (k : nat) : World :=
  if Nat.eqb k 4 then ctrl_c else Samples.outage.


End Runs.

(* ================================================================= *)
(** ** Facts about Python strings *)

Section StringFacts.

Lemma append_cons (c : ascii) (a b : string) :
  String c a ++ b = String c (a ++ b).
Proof. reflexivity. Qed.

Lemma append_nil (b : string) : "" ++ b = b.
Proof. reflexivity. Qed.

Lemma append_assoc (a b c : string) : (a ++ b) ++ c = a ++ b ++ c.
Proof.
  induction a as [|x a IH]; [reflexivity|].
  rewrite !append_cons. now rewrite IH.
Qed.

Lemma append_empty_r (a : string) : a ++ "" = a.
Proof.
  induction a as [|x a IH]; [reflexivity|].
  rewrite append_cons. now rewrite IH.
Qed.

Lemma prefix_app (n h : string) :
  String.prefix n h = true <-> exists b, h = n ++ b.
Proof.
  revert h. induction n as [|c n IH]; intros h.
  - split; [intros _; exists h; reflexivity|].
    intros _. destruct h; reflexivity.
  - destruct h as [|d h]; simpl.
    + split; [discriminate|]. intros [b Hb].
      rewrite append_cons in Hb. discriminate.
    + destruct (ascii_dec c d) as [->|Hne].
      * rewrite IH. split; intros [b Hb]; exists b.
        -- rewrite append_cons. now f_equal.
        -- rewrite append_cons in Hb. now injection Hb.
      * split; [discriminate|]. intros [b Hb].
        rewrite append_cons in Hb. congruence.
Qed.

Lemma contains_nil (n : string) :
  contains n "" = if String.prefix n "" then true else false.
Proof. reflexivity. Qed.

Lemma contains_cons (n : string) (d : ascii) (h : string) :
  contains n (String d h) =
  if String.prefix n (String d h) then true else contains n h.
Proof. reflexivity. Qed.

(** [contains] is Python's [in]: the needle occurs somewhere in [hay]. *)
Lemma contains_spec (n h : string) :
  contains n h = true <-> exists a b, h = a ++ n ++ b.
Proof.
  induction h as [|d h IH].
  - rewrite contains_nil. destruct (String.prefix n "") eqn:Hp.
    + apply prefix_app in Hp as [b Hb].
      split; [intros _; exists "", b; exact Hb | reflexivity].
    + split; [discriminate|]. intros (a & b & Hab).
      destruct a; [|rewrite append_cons in Hab; discriminate].
      rewrite append_nil in Hab.
      assert (String.prefix n "" = true) by (apply prefix_app; eauto).
      congruence.
  - rewrite contains_cons. destruct (String.prefix n (String d h)) eqn:Hp.
    + apply prefix_app in Hp as [b Hb].
      split; [intros _; exists "", b; exact Hb | reflexivity].
    + rewrite IH. split.
      * intros (a & b & ->). exists (String d a), b. reflexivity.
      * intros (a & b & Hab). destruct a as [|c a].
        -- rewrite append_nil in Hab.
           assert (String.prefix n (String d h) = true)
             by (apply prefix_app; eauto).
           congruence.
        -- rewrite append_cons in Hab. injection Hab as _ ->. eauto.
Qed.

Lemma contains_empty (h : string) : contains "" h = true.
Proof. destruct h; reflexivity. Qed.

Lemma contains_app (n a b : string) : contains n (a ++ n ++ b) = true.
Proof. apply contains_spec. eauto. Qed.

Lemma lower_empty : lower "" = "".
Proof. reflexivity. Qed.

Lemma lower_app (a b : string) : lower (a ++ b) = lower a ++ lower b.
Proof.
  induction a as [|c a IH]; [reflexivity|].
  rewrite append_cons. simpl. rewrite IH. now rewrite append_cons.
Qed.

Lemma lower_char_idem (c : ascii) : lower_char (lower_char c) = lower_char c.
Proof.
  destruct c as [[] [] [] [] [] [] [] []]; reflexivity.
Qed.

Lemma lower_idem (s : string) : lower (lower s) = lower s.
Proof.
  induction s as [|c s IH]; simpl; [reflexivity|].
  now rewrite lower_char_idem, IH.
Qed.

End StringFacts.

(* ================================================================= *)
(** ** The classifiers *)

Section Classifiers.

Lemma check_generic_match (page_source : string) (good_keywords : list string) :
  (exists keyword, In keyword good_keywords /\
                   contains (lower keyword) page_source = true) ->
  check_generic page_source good_keywords = "OPERATIONAL".
Proof.
  induction good_keywords as [|k rest IH]; intros (kw & Hin & Hc).
  - destruct Hin.
  - simpl. destruct (contains (lower k) page_source) eqn:Hk; [reflexivity|].
    destruct Hin as [->|Hin]; [congruence|]. apply IH. eauto.
Qed.

Lemma check_generic_no_match (page_source : string) (good_keywords : list string) :
  (forall keyword, In keyword good_keywords ->
                   contains (lower keyword) page_source = false) ->
  check_generic page_source good_keywords = "POTENTIAL OUTAGE".
Proof.
  induction good_keywords as [|k rest IH]; intros Hall; [reflexivity|].
  simpl. rewrite (Hall k) by (now left). apply IH.
  intros kw Hin. apply Hall. now right.
Qed.

Lemma check_generic_range (page_source : string) (good_keywords : list string) :
  check_generic page_source good_keywords = "OPERATIONAL" \/
  check_generic page_source good_keywords = "POTENTIAL OUTAGE".
Proof.
  induction good_keywords as [|k rest IH]; simpl; [now right|].
  destruct (contains (lower k) page_source); [now left | exact IH].
Qed.

End Classifiers.

(** C4. [check_downdetector] tests the three indicator phrases in a fixed
    order: "indicate no current problems" gives OPERATIONAL, otherwise
    "possible problems" gives POSSIBLE ISSUES, otherwise "indicate problems"
    gives OUTAGE DETECTED, otherwise the result is SUSPICIOUS / UNKNOWN.
    Hence a page that holds the first phrase together with any other phrase
    [p], before or after it, is classified OPERATIONAL. *)
Theorem check_downdetector_priority (page_source : string) :
  (contains "indicate no current problems" page_source = true ->
   check_downdetector page_source = "OPERATIONAL") /\
  (contains "indicate no current problems" page_source = false ->
   contains "possible problems" page_source = true ->
   check_downdetector page_source = "POSSIBLE ISSUES") /\
  (contains "indicate no current problems" page_source = false ->
   contains "possible problems" page_source = false ->
   contains "indicate problems" page_source = true ->
   check_downdetector page_source = "OUTAGE DETECTED") /\
  (contains "indicate no current problems" page_source = false ->
   contains "possible problems" page_source = false ->
   contains "indicate problems" page_source = false ->
   check_downdetector page_source = "SUSPICIOUS / UNKNOWN") /\
  (forall p a b c : string,
     page_source = a ++ "indicate no current problems" ++ b ++ p ++ c \/
     page_source = a ++ p ++ b ++ "indicate no current problems" ++ c ->
     check_downdetector page_source = "OPERATIONAL").
Proof.
  unfold check_downdetector. repeat split.
  - now intros ->.
  - now intros -> ->.
  - now intros -> -> ->.
  - now intros -> -> ->.
  - intros p a b c [-> | ->].
    + now rewrite contains_app.
    + replace (a ++ p ++ b ++ "indicate no current problems" ++ c)
        with ((a ++ p ++ b) ++ "indicate no current problems" ++ c).
      * now rewrite contains_app.
      * now rewrite !append_assoc.
Qed.

Lemma check_downdetector_priority_witness :
  check_downdetector "user reports indicate no current problems at roblox ... some problems reported" = "OPERATIONAL" /\
  check_downdetector "user reports indicate problems; user reports indicate no current problems" = "OPERATIONAL" /\
  check_downdetector "user reports indicate possible problems at roblox" = "POSSIBLE ISSUES" /\
  check_downdetector "user reports indicate problems at roblox" = "OUTAGE DETECTED" /\
  check_downdetector "just a moment..." = "SUSPICIOUS / UNKNOWN".
Proof.
  split; [|split; [|split; [|split]]].
  - apply (proj1 (check_downdetector_priority _)). reflexivity.
  - apply (proj2 (proj2 (proj2 (proj2 (check_downdetector_priority _))))
             "indicate problems" "user reports " "; user reports " "").
    right. reflexivity.
  - apply (proj1 (proj2 (check_downdetector_priority _))); reflexivity.
  - apply (proj1 (proj2 (proj2 (check_downdetector_priority _)))); reflexivity.
  - apply (proj1 (proj2 (proj2 (proj2 (check_downdetector_priority _)))));
      reflexivity.
Defined.

(* ================================================================= *)
(** ** Running the notification services *)

Ltac run :=
  cbv [bind ret emit print raise continue lift get_state set_state
       try_except end_of_iteration time_sleep
       requests_post smtp_session];
  cbn [app fst snd is_Exception].

Section Channels.

Variable config : Config.t.
Variables site_name status url : string.
Variable w : World.
Variable st : gmap string string.

(** [send_email_alert] always returns normally: every failure of the SMTP
    session is caught by one of its three [except] clauses. *)
Lemma send_email_alert_run :
  send_email_alert config site_name status url "" w st =
  (Ret tt, st, email_events config site_name status url w).
Proof.
  unfold send_email_alert, email_events, email_log. run.
  destruct (smtp w); reflexivity.
Qed.

(** [send_slack_alert] always returns normally as well. *)
Lemma send_slack_alert_run :
  send_slack_alert config site_name status url w st =
  (Ret tt, st, slack_events config site_name status url w).
Proof.
  unfold send_slack_alert, slack_events, slack_log.
  destruct (Config.slack_enabled config); [|reflexivity].
  run. destruct (slack w) as [code text| |m]; cbn [negb fst snd app].
  - destruct (code =? 200)%Z; reflexivity.
  - reflexivity.
  - reflexivity.
Qed.

End Channels.

(* ================================================================= *)
(** ** Running the check of one target *)

Section CheckTarget.

Variable config : Config.t.
Variable target : Target.
Variable w : World.
Variable st : gmap string string.

Let d := Config.check_delay config.

Lemma check_target_continue :
  skipped_by_continue target w = true ->
  check_target config target w st =
  (Continue, st,
   [Print (Checking (name target)); DriverGet (url target);
    SleepUniform 5 8; Print (skip_log target w)]).
Proof.
  unfold skipped_by_continue, skip_log, check_target.
  destruct (driver_get w) as [[]|e]; [|discriminate].
  destruct (driver_page_source w) as [source|e]; [|discriminate].
  destruct (driver_title w) as [title|e]; [|discriminate].
  run. destruct (contains "just a moment" (lower title)); [reflexivity|].
  cbn [orb]. destruct (String.eqb (mode target) "downdetector");
    [discriminate|].
  destruct (String.eqb (mode target) "generic"); [discriminate|].
  reflexivity.
Qed.

Lemma check_target_interrupted (e : exn) :
  fetch_interrupt w = Some e ->
  check_target config target w st =
  (Raise e, st, Print (Checking (name target)) :: fetch_events target w).
Proof.
  unfold fetch_interrupt, fetch_events, check_target.
  destruct (driver_get w) as [[]|e1].
  - destruct (driver_page_source w) as [source|e2].
    + destruct (driver_title w) as [title|e3]; [discriminate|].
      destruct (is_Exception e3) eqn:He; [discriminate|].
      intros [= ->]. run. rewrite He. reflexivity.
    + destruct (is_Exception e2) eqn:He; [discriminate|].
      intros [= ->]. run. rewrite He. reflexivity.
  - destruct (is_Exception e1) eqn:He; [discriminate|].
    intros [= ->]. run. rewrite He. reflexivity.
Qed.

Lemma check_target_fetch_failed :
  classification target w = None ->
  skipped_by_continue target w = false ->
  fetch_interrupt w = None ->
  check_target config target w st =
  (sleep_outcome d, st,
   ((Print (Checking (name target)) :: fetch_events target w) ++
    [Print (skip_log target w)] ++ sleep_events d)%list).
Proof.
  unfold classification, skipped_by_continue, fetch_interrupt, fetch_events,
    skip_log, check_target, sleep_outcome, sleep_events, d.
  destruct (driver_get w) as [[]|e1].
  - destruct (driver_page_source w) as [source|e2].
    + destruct (driver_title w) as [title|e3].
      * destruct (contains "just a moment" (lower title)); [discriminate|].
        destruct (String.eqb (mode target) "downdetector"); [discriminate|].
        destruct (String.eqb (mode target) "generic"); discriminate.
      * intros _ _. destruct (is_Exception e3) eqn:He; [|discriminate].
        intros _. run. rewrite He.
        destruct (Config.check_delay config <? 0)%Z; reflexivity.
    + intros _ _. destruct (is_Exception e2) eqn:He; [|discriminate].
      intros _. run. rewrite He.
      destruct (Config.check_delay config <? 0)%Z; reflexivity.
  - intros _ _. destruct (is_Exception e1) eqn:He; [|discriminate].
    intros _. run. rewrite He.
    destruct (Config.check_delay config <? 0)%Z; reflexivity.
Qed.

(** Lines 362-379 on the three kinds of stored status, and on a missing
    entry, where [site_states[url]] raises [KeyError]. *)
Lemma check_target_classified (cur : string) :
  classification target w = Some cur ->
  check_target config target w st =
  match st !! url target with
  | None =>
      (sleep_outcome d, st,
       (classified_events target cur ++
        [Print (Error (KeyError (url target)))] ++ sleep_events d)%list)
  | Some last =>
      if String.eqb cur last
      then (sleep_outcome d, st,
            (classified_events target cur ++ sleep_events d)%list)
      else if String.eqb last "initial"
      then (sleep_outcome d, <[url target := cur]> st,
            (classified_events target cur ++ sleep_events d)%list)
      else (sleep_outcome d, <[url target := cur]> st,
            (classified_events target cur ++
             [Print (StatusChange last cur)] ++
             email_events config (name target) cur (url target) w ++
             slack_events config (name target) cur (url target) w ++
             sleep_events d)%list)
  end.
Proof.
  unfold classification, check_target. cbv zeta.
  destruct (driver_get w) as [[]|e1]; [|discriminate].
  destruct (driver_page_source w) as [source|e2]; [|discriminate].
  destruct (driver_title w) as [title|e3]; [|discriminate].
  run.
  destruct (contains "just a moment" (lower title)); [discriminate|].
  assert (Hcur : forall cur' : string, Some cur' = Some cur -> cur' = cur)
    by (intros ? [= ->]; reflexivity).
  destruct (String.eqb (mode target) "downdetector");
    [|destruct (String.eqb (mode target) "generic"); [|discriminate]];
    intros Hc; apply Hcur in Hc; rewrite Hc; clear Hc Hcur;
    unfold classified_events, sleep_outcome, sleep_events, d;
    cbv beta iota zeta;
    (destruct (st !! url target) as [last|]; cbv beta iota zeta;
     [ destruct (String.eqb cur last); cbn [negb]; cbv beta iota zeta;
       [ destruct (Config.check_delay config <? 0)%Z; reflexivity
       | destruct (String.eqb last "initial"); cbn [negb];
         cbv beta iota zeta;
         [ destruct (Config.check_delay config <? 0)%Z; reflexivity
         | rewrite send_email_alert_run; cbv beta iota zeta;
           rewrite send_slack_alert_run; cbv beta iota zeta;
           cbn [app email_events];
           destruct (Config.check_delay config <? 0)%Z;
           cbn [app]; rewrite ?app_nil_r, <- ?app_assoc; reflexivity ] ]
     | cbn [is_Exception]; cbv beta iota zeta;
       destruct (Config.check_delay config <? 0)%Z; reflexivity ]).
Qed.

End CheckTarget.

(* ================================================================= *)
(** ** When a check computes no status *)


Lemma notifications_app (ev1 ev2 : list event) :
  notifications (ev1 ++ ev2)%list =
  (notifications ev1 ++ notifications ev2)%list.
Proof. apply List.filter_app. Qed.

Lemma notifications_sleep (seconds : Z) :
  notifications (sleep_events seconds) = [].
Proof. unfold sleep_events. now destruct (seconds <? 0)%Z. Qed.

Lemma notifications_fetch (target : Target) (w : World) :
  notifications (fetch_events target w) = [].
Proof.
  unfold fetch_events.
  now destruct (driver_get w), (driver_page_source w), (driver_title w).
Qed.

Lemma notifications_email (config : Config.t) (n s u : string) (w : World) :
  notifications (email_events config n s u w) =
  [SmtpSession (Config.email_sender config) (Config.email_password config)
     (email_message config n s u "")].
Proof. reflexivity. Qed.

Lemma notifications_slack (config : Config.t) (n s u : string) (w : World) :
  notifications (slack_events config n s u w) =
  if Config.slack_enabled config
  then [SlackPost (Config.slack_webhook_url config) (slack_text n s u)]
  else [].
Proof. unfold slack_events. now destruct (Config.slack_enabled config). Qed.

Section Unclassified.

Variable config : Config.t.
Variable target : Target.
Variable w : World.
Variable st : gmap string string.

Hypothesis Hnone : classification target w = None.

Lemma unclassified_cases :
  skipped_by_continue target w = true \/
  (exists e, fetch_interrupt w = Some e) \/
  (skipped_by_continue target w = false /\ fetch_interrupt w = None).
Proof.
  destruct (skipped_by_continue target w); [now left|].
  destruct (fetch_interrupt w) as [e|]; [right; left; eauto|].
  right; right; split; reflexivity.
Qed.

Lemma unclassified_store : store (check_target config target w st) = st.
Proof.
  destruct unclassified_cases as [H | [[e H] | [H1 H2]]].
  - now rewrite check_target_continue.
  - now rewrite (check_target_interrupted _ _ _ _ e).
  - now rewrite check_target_fetch_failed.
Qed.

Lemma unclassified_notifications :
  notifications (events (check_target config target w st)) = [].
Proof.
  destruct unclassified_cases as [H | [[e H] | [H1 H2]]].
  - now rewrite check_target_continue.
  - rewrite (check_target_interrupted _ _ _ _ e) by assumption.
    unfold events. cbn [snd]. change (Print ?l :: ?x)
      with ([Print l] ++ x)%list.
    now rewrite notifications_app, notifications_fetch.
  - rewrite check_target_fetch_failed by assumption.
    unfold events. cbn [snd].
    change (Print ?l :: fetch_events target w)
      with ([Print l] ++ fetch_events target w)%list.
    now rewrite !notifications_app, notifications_fetch,
      notifications_sleep.
Qed.

End Unclassified.

(* ================================================================= *)
(** ** Transition detection (lines 362-379) *)

Section Classified.

Variable config : Config.t.
Variable target : Target.
Variable w : World.
Variable st : gmap string string.
Variable cur : string.

Hypothesis Hcur : classification target w = Some cur.

Lemma classified_unchanged :
  st !! url target = Some cur ->
  check_target config target w st =
  (sleep_outcome (Config.check_delay config), st,
   (classified_events target cur ++
    sleep_events (Config.check_delay config))%list).
Proof.
  intros H. rewrite (check_target_classified _ _ _ _ cur Hcur), H.
  now rewrite String.eqb_refl.
Qed.

Lemma classified_first :
  st !! url target = Some "initial" ->
  cur <> "initial" ->
  check_target config target w st =
  (sleep_outcome (Config.check_delay config), <[url target := cur]> st,
   (classified_events target cur ++
    sleep_events (Config.check_delay config))%list).
Proof.
  intros H Hne. rewrite (check_target_classified _ _ _ _ cur Hcur), H.
  apply String.eqb_neq in Hne. now rewrite Hne.
Qed.

Lemma classified_changed (last : string) :
  st !! url target = Some last ->
  last <> "initial" ->
  last <> cur ->
  check_target config target w st =
  (sleep_outcome (Config.check_delay config), <[url target := cur]> st,
   (classified_events target cur ++
    [Print (StatusChange last cur)] ++
    email_events config (name target) cur (url target) w ++
    slack_events config (name target) cur (url target) w ++
    sleep_events (Config.check_delay config))%list).
Proof.
  intros H Hi Hne. rewrite (check_target_classified _ _ _ _ cur Hcur), H.
  apply String.eqb_neq in Hi. rewrite Hi.
  assert (String.eqb cur last = false) as ->
    by (apply String.eqb_neq; congruence).
  reflexivity.
Qed.

Lemma classified_missing :
  st !! url target = None ->
  check_target config target w st =
  (sleep_outcome (Config.check_delay config), st,
   (classified_events target cur ++
    [Print (Error (KeyError (url target)))] ++
    sleep_events (Config.check_delay config))%list).
Proof.
  intros H. now rewrite (check_target_classified _ _ _ _ cur Hcur), H.
Qed.

End Classified.

(** [classification] is the status that the check prints at line 360, and
    the check prints a status only when there is one. *)
Lemma classification_is_logged (config : Config.t) (target : Target)
    (w : World) (st : gmap string string) :
  List.filter is_current_status (events (check_target config target w st)) =
  match classification target w with
  | Some cur => [Print (CurrentStatus cur)]
  | None => []
  end.
Proof.
  destruct (classification target w) as [cur|] eqn:Hc.
  - rewrite (check_target_classified _ _ _ _ cur Hc).
    assert (Hs : List.filter is_current_status
                   (sleep_events (Config.check_delay config)) = []).
    { unfold sleep_events.
      now destruct (Config.check_delay config <? 0)%Z. }
    assert (He : List.filter is_current_status
                   (email_events config (name target) cur (url target) w)
                 = []).
    { unfold email_events, email_log. now destruct (smtp w). }
    assert (Hk : List.filter is_current_status
                   (slack_events config (name target) cur (url target) w)
                 = []).
    { unfold slack_events, slack_log.
      destruct (Config.slack_enabled config); [|reflexivity].
      destruct (slack w) as [code ?| |]; try destruct (code =? 200)%Z;
        reflexivity. }
    destruct (st !! url target) as [last|];
      [destruct (String.eqb cur last);
       [|destruct (String.eqb last "initial")]|];
      unfold events; cbn [snd];
      rewrite !List.filter_app, ?Hs, ?He, ?Hk; reflexivity.
  - destruct (unclassified_cases target w) as [H | [[e H] | [H1 H2]]].
    + rewrite check_target_continue by assumption.
      unfold events, skip_log, skipped_by_continue in *. cbn [snd].
      destruct (driver_get w), (driver_page_source w),
        (driver_title w) as [title|]; try discriminate.
      now destruct (contains "just a moment" (lower title)).
    + rewrite (check_target_interrupted _ _ _ _ e) by assumption.
      unfold events, fetch_events. cbn [snd].
      now destruct (driver_get w).
    + rewrite check_target_fetch_failed by assumption.
      unfold events. cbn [snd].
      assert (Hs : List.filter is_current_status
                     (sleep_events (Config.check_delay config)) = []).
      { unfold sleep_events.
        now destruct (Config.check_delay config <? 0)%Z. }
      change (Print (Checking (name target)) :: fetch_events target w)
        with ([Print (Checking (name target))] ++ fetch_events target w)%list.
      rewrite !List.filter_app, Hs.
      unfold fetch_events, skip_log.
      destruct (driver_get w), (driver_page_source w),
        (driver_title w) as [title|]; try reflexivity.
      now destruct (contains "just a moment" (lower title)).
Qed.

(** C1. The check of a target dispatches nothing when the stored status is
    "initial", and nothing when the status it computes equals the stored
    one; whenever it does dispatch, the stored status is neither "initial"
    nor the computed status. *)
Theorem no_notification_unless_changed
    (config : Config.t) (target : Target) (w : World)
    (st : gmap string string) :
  (st !! url target = Some "initial" ->
   notifications (events (check_target config target w st)) = []) /\
  (forall cur, classification target w = Some cur ->
               st !! url target = Some cur ->
   notifications (events (check_target config target w st)) = []) /\
  (notifications (events (check_target config target w st)) <> [] ->
   exists last cur,
     st !! url target = Some last /\ classification target w = Some cur /\
     last <> "initial" /\ last <> cur).
Proof.
  destruct (classification target w) as [cur|] eqn:Hc.
  - rewrite (check_target_classified _ _ _ _ cur Hc).
    destruct (st !! url target) as [last|] eqn:Hl.
    + destruct (String.eqb_spec cur last) as [->|Hne].
      * unfold events; cbn [snd].
        rewrite notifications_app, notifications_sleep.
        split; [reflexivity|]. split; [reflexivity|]. now intros [].
      * destruct (String.eqb_spec last "initial") as [->|Hi].
        -- unfold events; cbn [snd].
           rewrite notifications_app, notifications_sleep.
           split; [reflexivity|]. split; [reflexivity|]. now intros [].
        -- split; [congruence|]. split; [congruence|].
           intros _. exists last, cur. repeat split; congruence.
    + unfold events; cbn [snd].
      rewrite !notifications_app, notifications_sleep.
      split; [reflexivity|]. split; [reflexivity|]. now intros [].
  - rewrite unclassified_notifications by assumption.
    split; [reflexivity|]. split; [reflexivity|]. now intros [].
Qed.

Lemma no_notification_unless_changed_witness :
  notifications (events (check_target Samples.config Samples.archive
    Samples.outage {[ url Samples.archive := "initial" ]})) = [] /\
  notifications (events (check_target Samples.config Samples.archive
    Samples.outage {[ url Samples.archive := "OUTAGE DETECTED" ]})) = [] /\
  exists last cur,
    ({[ url Samples.archive := "OPERATIONAL" ]} : gmap string string)
      !! url Samples.archive = Some last /\
    classification Samples.archive Samples.outage = Some cur /\
    last <> "initial" /\ last <> cur.
Proof.
  split; [|split].
  - apply (proj1 (no_notification_unless_changed _ _ _ _)).
    vm_compute. reflexivity.
  - apply (proj1 (proj2 (no_notification_unless_changed _ _ _ _))
             "OUTAGE DETECTED").
    + vm_compute. reflexivity.
    + vm_compute. reflexivity.
  - apply (proj2 (proj2 (no_notification_unless_changed Samples.config _ _ _))).
    vm_compute. discriminate.
Defined.

(** C2, as the code has it. When the stored status is neither "initial" nor
    the computed status, the check opens exactly one SMTP session and, when
    Slack is enabled, posts exactly one Slack message, in this order and
    nothing else; both carry the name of the target, the new status and the
    URL. The previous status is written to the console only, in the one
    STATUS CHANGE line. *)
Theorem transition_notifies_once
    (config : Config.t) (target : Target) (w : World)
    (st : gmap string string) (last cur : string) :
  classification target w = Some cur ->
  st !! url target = Some last ->
  last <> "initial" ->
  last <> cur ->
  let ev := events (check_target config target w st) in
  let msg := email_message config (name target) cur (url target) "" in
  let text := slack_text (name target) cur (url target) in
  notifications ev =
    (SmtpSession (Config.email_sender config) (Config.email_password config)
       msg ::
     if Config.slack_enabled config
     then [SlackPost (Config.slack_webhook_url config) text] else [])%list /\
  (contains (name target) (mime_body msg) = true /\
   contains cur (mime_body msg) = true /\
   contains (url target) (mime_body msg) = true /\
   contains (name target) (mime_subject msg) = true /\
   contains cur (mime_subject msg) = true) /\
  (contains (name target) text = true /\ contains cur text = true /\
   contains (url target) text = true) /\
  List.filter is_status_change ev = [Print (StatusChange last cur)].
Proof.
  intros Hc Hl Hi Hne ev msg text. subst ev.
  rewrite (classified_changed _ _ _ _ cur Hc last Hl Hi Hne).
  unfold events; cbn [snd]. split; [|split; [|split]].
  - rewrite !notifications_app, notifications_email, notifications_slack,
      notifications_sleep.
    cbn [classified_events notifications List.filter is_notification app].
    now rewrite app_nil_r.
  - subst msg. unfold email_message. cbn [mime_body mime_subject].
    repeat split; apply contains_spec.
    + exists ("Monitor Alert!" ++ nl ++ nl ++ "Site: ").
      eexists. now rewrite !append_assoc.
    + exists ("Monitor Alert!" ++ nl ++ nl ++ "Site: " ++ name target ++
              nl ++ "New Status: ").
      eexists. now rewrite !append_assoc.
    + exists ("Monitor Alert!" ++ nl ++ nl ++ "Site: " ++ name target ++
              nl ++ "New Status: " ++ cur ++ nl ++ "Link: ").
      eexists. now rewrite !append_assoc.
    + exists "ALERT: ". eexists. reflexivity.
    + exists ("ALERT: " ++ name target ++ " is "), "".
      rewrite !append_assoc. now rewrite append_empty_r.
  - subst text. unfold slack_text. repeat split; apply contains_spec.
    + exists "🚨 *Monitor Alert: ". eexists. reflexivity.
    + exists ("🚨 *Monitor Alert: " ++ name target ++ "*" ++ nl ++
              "*Status:* ").
      eexists. now rewrite !append_assoc.
    + exists ("🚨 *Monitor Alert: " ++ name target ++ "*" ++ nl ++
              "*Status:* " ++ cur ++ nl ++ "<").
      eexists. now rewrite !append_assoc.
  - rewrite !List.filter_app.
    unfold email_events, slack_events, sleep_events, email_log, slack_log.
    destruct (Config.slack_enabled config),
      (Config.check_delay config <? 0)%Z, (smtp w),
      (slack w) as [code ?| |]; try destruct (code =? 200)%Z; reflexivity.
Qed.

Lemma transition_notifies_once_witness :
  notifications (events (check_target Samples.config Samples.archive
    Samples.outage {[ url Samples.archive := "OPERATIONAL" ]})) =
  [SmtpSession "monitor@example.com" "app-password"
     (email_message Samples.config "Internet Archive" "OUTAGE DETECTED"
        (url Samples.archive) "");
   SlackPost "https://hooks.slack.com/services/T/B/X"
     (slack_text "Internet Archive" "OUTAGE DETECTED" (url Samples.archive))].
Proof.
  refine (proj1 (transition_notifies_once Samples.config Samples.archive
            Samples.outage {[ url Samples.archive := "OPERATIONAL" ]}
            "OPERATIONAL" "OUTAGE DETECTED" _ _ _ _)).
  - vm_compute. reflexivity.
  - vm_compute. reflexivity.
  - discriminate.
  - discriminate.
Defined.

(** C2 as stated fails: the notifications of a change to OUTAGE DETECTED are
    the same whether the stored status was OPERATIONAL or POSSIBLE ISSUES,
    and none of their text fields mentions the previous status. *)
Lemma notification_omits_previous_status :
  let st1 : gmap string string := {[ url Samples.archive := "OPERATIONAL" ]} in
  let st2 : gmap string string :=
    {[ url Samples.archive := "POSSIBLE ISSUES" ]} in
  let run st := check_target Samples.config Samples.archive Samples.outage st in
  classification Samples.archive Samples.outage = Some "OUTAGE DETECTED" /\
  st1 !! url Samples.archive = Some "OPERATIONAL" /\
  st2 !! url Samples.archive = Some "POSSIBLE ISSUES" /\
  length (notifications (events (run st1))) = 2%nat /\
  notifications (events (run st1)) = notifications (events (run st2)) /\
  List.forallb
    (fun e => List.forallb (fun s => negb (contains "OPERATIONAL" s))
                (notification_text e))
    (notifications (events (run st1))) = true /\
  List.forallb
    (fun e => List.forallb (fun s => negb (contains "POSSIBLE ISSUES" s))
                (notification_text e))
    (notifications (events (run st2))) = true.
Proof. vm_compute. repeat split. Qed.

(* ================================================================= *)
(** ** The state store *)

Section Store.

Variable config : Config.t.

(** A check writes no entry but the one of its own target. *)
Lemma check_target_other_entries (target : Target) (w : World)
    (st : gmap string string) (u : string) :
  u <> url target ->
  store (check_target config target w st) !! u = st !! u.
Proof.
  intros Hu. destruct (classification target w) as [cur|] eqn:Hc.
  - rewrite (check_target_classified _ _ _ _ cur Hc).
    destruct (st !! url target) as [last|]; [|reflexivity].
    destruct (String.eqb cur last); [reflexivity|].
    destruct (String.eqb last "initial"); unfold store; cbn [fst snd];
      now rewrite lookup_insert_ne.
  - now rewrite unclassified_store.
Qed.

(** Entries are never deleted. *)
Lemma check_target_keeps_entries (target : Target) (w : World)
    (st : gmap string string) (u : string) :
  is_Some (st !! u) ->
  is_Some (store (check_target config target w st) !! u).
Proof.
  intros Hu. destruct (decide (u = url target)) as [->|Hne];
    [|now rewrite check_target_other_entries].
  destruct (classification target w) as [cur|] eqn:Hc.
  - rewrite (check_target_classified _ _ _ _ cur Hc).
    destruct Hu as [last Hl]. rewrite Hl.
    destruct (String.eqb cur last); [unfold store; cbn; eauto|].
    destruct (String.eqb last "initial"); unfold store; cbn [fst snd];
      rewrite lookup_insert_eq; eauto.
  - rewrite unclassified_store; assumption.
Qed.

(** The dictionary built at startup has an entry for every target. *)
Lemma initial_site_states_lookup (targets : list Target) (u : string) :
  initial_site_states targets !! u =
  if bool_decide (u ∈ List.map url targets) then Some "initial" else None.
Proof.
  unfold initial_site_states.
  assert (H : forall (d : gmap string string),
    fold_left (fun d target => <[url target := "initial"]> d) targets d !! u
    = if bool_decide (u ∈ List.map url targets) then Some "initial"
      else d !! u).
  { induction targets as [|t rest IH]; intros d0.
    - cbn. rewrite bool_decide_eq_false_2; [reflexivity|].
      apply not_elem_of_nil.
    - cbn [fold_left List.map]. rewrite IH.
      destruct (decide (u ∈ List.map url rest)) as [Hin|Hnin].
      + rewrite !bool_decide_eq_true_2; [reflexivity| |assumption].
        apply elem_of_cons; now right.
      + rewrite (bool_decide_eq_false_2 _ Hnin).
        destruct (decide (u = url t)) as [->|Hne].
        * rewrite bool_decide_eq_true_2 by (apply elem_of_cons; now left).
          apply lookup_insert_eq.
        * rewrite bool_decide_eq_false_2.
          -- now rewrite lookup_insert_ne.
          -- intros [?|?]%elem_of_cons; congruence. }
  rewrite H. rewrite lookup_empty. reflexivity.
Qed.

End Store.

(* ================================================================= *)
(** ** The first cycle *)

Lemma for_targets_step (config : Config.t) (target : Target)
    (rest : list Target) (ws : nat -> World) (k : nat)
    (st : gmap string string) :
  for_targets config (target :: rest) ws k st =
  let r := check_target config target (ws k) st in
  match outcome r with
  | Ret _ | Continue =>
      let r' := for_targets config rest ws (S k) (store r) in
      (outcome r', store r', (events r ++ events r')%list)
  | Raise e => (Raise e, store r, events r)
  | Unfinished => (Unfinished, store r, events r)
  end.
Proof.
  cbn [for_targets]. unfold bind, end_of_iteration, outcome, store, events.
  destruct (check_target config target (ws k) st) as [[c st'] ev].
  cbn [fst snd].
  destruct c as [[]| | |]; try reflexivity;
    destruct (for_targets config rest ws (S k) st') as [[c' st''] ev'];
    reflexivity.
Qed.

Lemma check_target_silent_on_initial (config : Config.t) (target : Target)
    (w : World) (st : gmap string string) :
  st !! url target = Some "initial" ->
  notifications (events (check_target config target w st)) = [].
Proof.
  intros Hl. destruct (classification target w) as [cur|] eqn:Hc.
  - rewrite (check_target_classified _ _ _ _ cur Hc), Hl.
    rewrite String.eqb_refl.
    destruct (String.eqb cur "initial"); unfold events; cbn [snd];
      now rewrite notifications_app, notifications_sleep.
  - now apply unclassified_notifications.
Qed.

(** From a dictionary where every target is still "initial", a pass over
    targets with distinct URLs sends nothing. *)
Lemma first_pass_is_silent (config : Config.t) (targets : list Target)
    (ws : nat -> World) :
  NoDup (List.map url targets) ->
  forall (k : nat) (st : gmap string string),
    (forall t, In t targets -> st !! url t = Some "initial") ->
    notifications (events (for_targets config targets ws k st)) = [].
Proof.
  induction targets as [|t rest IH]; intros Hnd k st Hinit; [reflexivity|].
  apply NoDup_cons in Hnd as [Hfresh Hnd].
  assert (Ht : notifications (events (check_target config t (ws k) st)) = [])
    by (apply check_target_silent_on_initial, Hinit; now left).
  assert (Hrest : forall t', In t' rest ->
            store (check_target config t (ws k) st) !! url t'
            = Some "initial").
  { intros t' Hin. rewrite check_target_other_entries.
    - apply Hinit. now right.
    - intros Heq. apply Hfresh. rewrite <- Heq.
      apply list_elem_of_In, in_map, Hin. }
  rewrite for_targets_step. cbv zeta.
  destruct (outcome (check_target config t (ws k) st)) as [[]| | |];
    unfold events at 1; cbn [snd]; try exact Ht;
    rewrite notifications_app, Ht; cbn [app]; now apply IH.
Qed.

(** The first cycle of [start_monitoring] notifies nobody. *)
Lemma first_cycle_is_silent (config : Config.t) (ws : nat -> World) :
  notifications
    (events (for_targets config TARGETS ws 0 (initial_site_states TARGETS)))
  = [].
Proof.
  apply first_pass_is_silent.
  - cbn. repeat (apply NoDup_cons; split;
                 [rewrite ?elem_of_cons, ?elem_of_nil; intuition discriminate|]).
    apply NoDup_nil_2.
  - intros t Hin. rewrite initial_site_states_lookup.
    rewrite bool_decide_eq_true_2; [reflexivity|].
    apply list_elem_of_In, in_map, Hin.
Qed.

(** Entries are kept by a whole pass, so every later lookup
    [site_states[url]] of a target finds one. *)
Lemma for_targets_keeps_entries (config : Config.t) (targets : list Target)
    (ws : nat -> World) (u : string) :
  forall (k : nat) (st : gmap string string),
    is_Some (st !! u) ->
    is_Some (store (for_targets config targets ws k st) !! u).
Proof.
  induction targets as [|t rest IH]; intros k st Hu; [exact Hu|].
  pose proof (check_target_keeps_entries config t (ws k) st u Hu) as Ht.
  rewrite for_targets_step. cbv zeta.
  destruct (outcome (check_target config t (ws k) st)) as [[]| | |];
    unfold store at 1; cbn [fst snd]; try exact Ht; now apply IH.
Qed.



(* ================================================================= *)
(** ** The loop over the targets *)

Lemma for_targets_cons (config : Config.t) (target : Target)
    (rest : list Target) (ws : nat -> World) (k : nat)
    (st : gmap string string) :
  outcome (check_target config target (ws k) st) = Ret tt \/
  outcome (check_target config target (ws k) st) = Continue ->
  let r := check_target config target (ws k) st in
  let r' := for_targets config rest ws (S k) (store r) in
  for_targets config (target :: rest) ws k st =
  (outcome r', store r', (events r ++ events r')%list).
Proof.
  cbn [for_targets]. unfold bind, end_of_iteration, outcome, store, events.
  destruct (check_target config target (ws k) st) as [[c st'] ev].
  cbn [fst snd].
  intros [-> | ->];
    destruct (for_targets config rest ws (S k) st') as [[c' st''] ev'];
    reflexivity.
Qed.




(* ================================================================= *)
(** ** Startup validation *)

Section Validate.

Variable config : Config.t.
Variable st : gmap string string.

Lemma truthy_false (s : string) : truthy s = false <-> s = "".
Proof. destruct s; cbn; split; congruence. Qed.

Lemma validate_exits :
  email_settings_missing config ->
  exists errors warning,
    errors <> [] /\
    Config.validate config st =
    (Raise (SystemExit 1), st,
     (warning ++ [Print (ConfigurationError errors)])%list) /\
    warning = if truthy (Config.slack_webhook_url config) then []
              else [Print SlackNotSetWarning].
Proof.
  unfold email_settings_missing, Config.validate. intros Hm.
  destruct (truthy (Config.email_sender config)) eqn:Hs;
    destruct (truthy (Config.email_password config)) eqn:Hp;
    destruct (Config.email_receivers config) as [|rcv rcvs] eqn:Hr;
    try (exfalso; destruct Hm as [H | [H | H]];
         [ apply truthy_false in H; congruence
         | apply truthy_false in H; congruence
         | discriminate ]);
    cbn [negb app]; run;
    destruct (truthy (Config.slack_webhook_url config));
    cbn [negb]; eexists; eexists;
    (split; [|split; [reflexivity | reflexivity]]); discriminate.
Qed.

Lemma validate_passes :
  ~ email_settings_missing config ->
  Config.validate config st =
  (Ret true, st,
   if truthy (Config.slack_webhook_url config) then []
   else [Print SlackNotSetWarning]).
Proof.
  unfold email_settings_missing, Config.validate. intros Hm.
  destruct (truthy (Config.email_sender config)) eqn:Hs;
    [|exfalso; apply Hm; left; now apply truthy_false].
  destruct (truthy (Config.email_password config)) eqn:Hp;
    [|exfalso; apply Hm; right; left; now apply truthy_false].
  destruct (Config.email_receivers config) as [|rcv rcvs] eqn:Hr;
    [exfalso; apply Hm; right; right; reflexivity|].
  cbn [negb]. run.
  destruct (truthy (Config.slack_webhook_url config)); reflexivity.
Qed.

End Validate.

(** C7. [validate] ends the process with exit status 1 exactly when the
    sender, the password or the list of receivers is empty; then
    [start_monitoring] stops there, before the browser is created and before
    any cycle. With these three present [validate] returns [True] whatever
    the Slack webhook URL is, and the loop starts. An empty webhook URL
    disables Slack: [send_slack_alert] then returns at once, printing and
    sending nothing. *)
Theorem validation_fatal_only_for_email_settings
    (config : Config.t) (ws : nat -> World) (cycles : nat)
    (st : gmap string string) :
  (email_settings_missing config ->
   outcome (Config.validate config st) = Raise (SystemExit 1) /\
   outcome (start_monitoring config ws cycles st) = Raise (SystemExit 1) /\
   events (start_monitoring config ws cycles st) =
     events (Config.validate config st) /\
   ~ In CreateBrowser (events (start_monitoring config ws cycles st)) /\
   ~ In (Print CycleHeader) (events (start_monitoring config ws cycles st))) /\
  (~ email_settings_missing config ->
   outcome (Config.validate config st) = Ret true /\
   In CreateBrowser (events (start_monitoring config ws cycles st))) /\
  (Config.slack_webhook_url config = "" ->
   Config.slack_enabled config = false /\
   forall site_name status url w st',
     send_slack_alert config site_name status url w st' = (Ret tt, st', [])).
Proof.
  split; [|split].
  - intros Hm.
    destruct (validate_exits config st Hm) as (errors & warning & _ & Hv & Hw).
    assert (Hs : start_monitoring config ws cycles st =
                 (Raise (SystemExit 1), st,
                  (warning ++ [Print (ConfigurationError errors)])%list)).
    { unfold start_monitoring, monitor, bind. now rewrite Hv. }
    rewrite Hs, Hv. unfold outcome, events. cbn [fst snd].
    repeat split.
    + intros [H | [H | []]]%in_app_or; [|discriminate].
      rewrite Hw in H. destruct (truthy (Config.slack_webhook_url config));
        [destruct H | destruct H as [H | []]; discriminate].
    + intros [H | [H | []]]%in_app_or; [|discriminate].
      rewrite Hw in H. destruct (truthy (Config.slack_webhook_url config));
        [destruct H | destruct H as [H | []]; discriminate].
  - intros Hm. rewrite (validate_passes config st Hm).
    split; [reflexivity|].
    unfold start_monitoring, monitor, bind.
    rewrite (validate_passes config st Hm).
    cbv [init_site_states print emit].
    destruct (try_finally _ _ _) as [[c s'] ev].
    unfold events. cbn [snd].
    apply in_or_app. right. right. now left.
  - intros Hu. unfold send_slack_alert, Config.slack_enabled.
    rewrite Hu. split; reflexivity.
Qed.

Lemma validation_fatal_only_for_email_settings_witness :
  outcome (start_monitoring
             {| Config.email_sender := "monitor@example.com";
                Config.email_password := "";
                Config.email_receivers := ["ops@example.com"];
                Config.slack_webhook_url := "";
                Config.check_delay := 10;
                Config.loop_delay := 60 |}
             (fun _ => Samples.outage) 1 ∅) = Raise (SystemExit 1) /\
  outcome (Config.validate Samples.config_no_slack ∅) = Ret true /\
  send_slack_alert Samples.config_no_slack "Roblox" "OUTAGE DETECTED"
    "https://downdetector.com/status/roblox/" Samples.outage ∅ =
  (Ret tt, ∅, []).
Proof.
  split; [|split].
  - apply (proj1 (validation_fatal_only_for_email_settings _ _ _ _)).
    right; left. reflexivity.
  - apply (proj1 (proj2 (validation_fatal_only_for_email_settings
                           Samples.config_no_slack (fun _ => Samples.outage)
                           1 ∅))).
    unfold email_settings_missing. cbn.
    intros [H | [H | H]]; discriminate.
  - apply (proj2 (proj2 (validation_fatal_only_for_email_settings
                           Samples.config_no_slack (fun _ => Samples.outage)
                           1 ∅))).
    reflexivity.
Defined.

(* ================================================================= *)
(** ** The pause between two targets *)

Lemma sleep_events_nonneg (seconds : Z) :
  (0 <= seconds)%Z -> sleep_events seconds = [Sleep seconds].
Proof.
  intros H. unfold sleep_events.
  destruct (Z.ltb_spec seconds 0); [lia | reflexivity].
Qed.

(** After a status was computed, and after a fetch that raised an
    [Exception], the check ends with [time.sleep(config.check_delay)]. *)
Lemma check_target_pauses (config : Config.t) (target : Target) (w : World)
    (st : gmap string string) :
  (0 <= Config.check_delay config)%Z ->
  skipped_by_continue target w = false ->
  fetch_interrupt w = None ->
  exists ev,
    events (check_target config target w st) =
    (ev ++ [Sleep (Config.check_delay config)])%list.
Proof.
  intros Hd Hs Hi. destruct (classification target w) as [cur|] eqn:Hc.
  - rewrite (check_target_classified _ _ _ _ cur Hc).
    rewrite (sleep_events_nonneg _ Hd).
    destruct (st !! url target) as [last|].
    + destruct (String.eqb cur last); [eexists; reflexivity|].
      destruct (String.eqb last "initial"); [eexists; reflexivity|].
      unfold events. cbn [snd]. eexists.
      rewrite !app_assoc. reflexivity.
    + unfold events. cbn [snd]. eexists. rewrite !app_assoc. reflexivity.
  - rewrite check_target_fetch_failed by assumption.
    rewrite (sleep_events_nonneg _ Hd). unfold events. cbn [snd].
    eexists. rewrite !app_assoc. reflexivity.
Qed.

(** C8 fails on the code. When the title announces a challenge page, or
    when the mode is unknown, the [continue] statement leaves the loop body
    before [time.sleep(config.check_delay)]: the check ends without any
    [Sleep] event, and the loop goes straight to the next target. *)
Theorem continue_skips_inter_target_delay
    (config : Config.t) (target : Target) (w : World)
    (st : gmap string string) (source title : string) :
  driver_get w = Returned tt ->
  driver_page_source w = Returned source ->
  driver_title w = Returned title ->
  contains "just a moment" (lower title) = true \/ unknown_mode target ->
  outcome (check_target config target w st) = Continue /\
  (forall seconds,
     ~ In (Sleep seconds) (events (check_target config target w st))) /\
  (forall rest ws k,
     ws k = w ->
     events (for_targets config (target :: rest) ws k st) =
     ([Print (Checking (name target)); DriverGet (url target);
       SleepUniform 5 8; Print (skip_log target w)] ++
      events (for_targets config rest ws (S k) st))%list).
Proof.
  intros Hg Hp Ht Hskip.
  assert (Hs : skipped_by_continue target w = true).
  { unfold skipped_by_continue. rewrite Hg, Hp, Ht.
    destruct Hskip as [-> | [Hd Hgen]]; [reflexivity|].
    apply String.eqb_neq in Hd, Hgen. rewrite Hd, Hgen.
    now destruct (contains "just a moment" (lower title)). }
  rewrite (check_target_continue config target w st Hs).
  split; [reflexivity|]. split.
  - intros seconds H. unfold events in H. cbn [snd] in H.
    destruct H as [H | [H | [H | [H | []]]]]; discriminate.
  - intros rest ws k Hw.
    pose proof (for_targets_cons config target rest ws k st) as Hf.
    rewrite Hw, (check_target_continue config target w st Hs) in Hf.
    cbv zeta in Hf. rewrite Hf by (right; reflexivity).
    reflexivity.
Qed.

Lemma continue_skips_inter_target_delay_witness :
  let challenge :=
    Samples.page "<html>checking your browser</html>" "Just a moment..."
      Delivered (Response 200 "ok") in
  let st : gmap string string := initial_site_states TARGETS in
  outcome (check_target Samples.config Samples.archive challenge st)
    = Continue /\
  ~ In (Sleep 10)
       (events (check_target Samples.config Samples.archive challenge st)).
Proof.
  intros challenge st.
  destruct (continue_skips_inter_target_delay Samples.config Samples.archive
              challenge st "<html>checking your browser</html>"
              "Just a moment..." eq_refl eq_refl eq_refl
              (or_introl eq_refl)) as (A & B & _).
  split; [exact A | exact (B 10%Z)].
Defined.

(** The first cycle over [TARGETS] when the first page is a challenge page:
    no pause separates the first target from the second. *)
Example blocked_target_trace :
  events (for_targets Samples.config TARGETS
            (fun k => match k with
                      | O => Samples.page "checking your browser"
                               "Just a moment..." Delivered (Response 200 "ok")
                      | _ => Samples.page "user reports indicate no current problems"
                               "status" Delivered (Response 200 "ok")
                      end)
            0 (initial_site_states TARGETS)) =
  [Print (Checking "Internet Archive");
   DriverGet "https://downdetector.com/status/internetarchive/";
   SleepUniform 5 8; Print Blocked;
   Print (Checking "Roblox");
   DriverGet "https://downdetector.com/status/roblox/";
   SleepUniform 5 8; Print (CurrentStatus "OPERATIONAL"); Sleep 10;
   Print (Checking "OpenAI API"); DriverGet "https://status.openai.com/";
   SleepUniform 5 8; Print (CurrentStatus "POTENTIAL OUTAGE"); Sleep 10].
Proof. vm_compute. reflexivity. Qed.

(* ================================================================= *)
(** ** The keyword classifier *)

(** C6 as stated fails: with an empty keyword list [check_generic] raises
    nothing and reports POTENTIAL OUTAGE, and so does the check of a target
    whose [good_keywords] is the empty list, without any error line. *)
Lemma empty_keyword_list_is_not_an_error :
  check_generic "all systems operational" [] = "POTENTIAL OUTAGE" /\
  check_target Samples.config (Keyword.status_page (Some []))
    (Samples.page "All Systems Operational" "OpenAI Status" Delivered
       (Response 200 "ok"))
    {[ "https://status.openai.com/" := "initial" ]} =
  (Ret tt, {[ "https://status.openai.com/" := "POTENTIAL OUTAGE" ]},
   [Print (Checking "OpenAI API"); DriverGet "https://status.openai.com/";
    SleepUniform 5 8; Print (CurrentStatus "POTENTIAL OUTAGE"); Sleep 10]).
Proof. split; vm_compute; reflexivity. Qed.

(** C6, as the code has it. With an empty keyword list the loop of
    [check_generic] has no iteration and the function returns
    POTENTIAL OUTAGE for every page; a generic target whose [good_keywords]
    is the empty list is given this status whenever its page is fetched and
    is no challenge page. The default list is used only when the key is
    absent. *)
Theorem empty_keyword_list_reports_outage (page_source : string) :
  check_generic page_source [] = "POTENTIAL OUTAGE" /\
  (forall (target : Target) (w : World) (title : string),
     mode target = "generic" ->
     good_keywords target = Some [] ->
     driver_get w = Returned tt ->
     driver_page_source w = Returned page_source ->
     driver_title w = Returned title ->
     contains "just a moment" (lower title) = false ->
     classification target w = Some "POTENTIAL OUTAGE") /\
  (forall (target : Target) (w : World) (title : string),
     mode target = "generic" ->
     good_keywords target = None ->
     driver_get w = Returned tt ->
     driver_page_source w = Returned page_source ->
     driver_title w = Returned title ->
     contains "just a moment" (lower title) = false ->
     classification target w =
     Some (check_generic (lower page_source) ["operational"])).
Proof.
  split; [reflexivity|].
  split; intros target w title Hm Hk Hg Hp Ht Hb; unfold classification;
    rewrite Hg, Hp, Ht, Hb, Hm, Hk; reflexivity.
Qed.

Lemma empty_keyword_list_reports_outage_witness :
  classification (Keyword.status_page (Some []))
    (Samples.page "all systems operational" "OpenAI Status" Delivered
       (Response 200 "ok")) = Some "POTENTIAL OUTAGE" /\
  classification (Keyword.status_page None)
    (Samples.page "all systems operational" "OpenAI Status" Delivered
       (Response 200 "ok")) = Some "OPERATIONAL".
Proof.
  split.
  - apply (proj1 (proj2 (empty_keyword_list_reports_outage
                           "all systems operational"))
             _ _ "OpenAI Status"); reflexivity.
  - apply (proj2 (proj2 (empty_keyword_list_reports_outage
                           "all systems operational"))
             (Keyword.status_page None) _ "OpenAI Status"); reflexivity.
Defined.

(** C9. The keyword classifier is given the page text in lower case, which
    is its contract and what its caller does at line 339, and folds the case
    of the keywords itself, so the match is case-insensitive: for the page
    "All Systems Operational" and the keyword list ["operational"] it
    returns OPERATIONAL, also when the keyword is written with capitals,
    and for "Partial Outage" with the same list it returns POTENTIAL OUTAGE.
    The check of a generic target computes these statuses on the two
    pages. *)
Theorem check_generic_examples :
  check_generic (lower "All Systems Operational") ["operational"]
    = "OPERATIONAL" /\
  check_generic (lower "All Systems Operational") ["Operational"]
    = "OPERATIONAL" /\
  check_generic (lower "Partial Outage") ["operational"]
    = "POTENTIAL OUTAGE" /\
  check_generic "Partial Outage" ["operational"] = "POTENTIAL OUTAGE" /\
  classification (Keyword.status_page (Some ["operational"]))
    (Samples.page "All Systems Operational" "Status" Delivered
       (Response 200 "ok")) = Some "OPERATIONAL" /\
  classification (Keyword.status_page (Some ["operational"]))
    (Samples.page "Partial Outage" "Status" Delivered
       (Response 200 "ok")) = Some "POTENTIAL OUTAGE".
Proof. repeat split. Qed.

(** C10. A keyword list that holds the empty string makes [check_generic]
    return OPERATIONAL on every page, the empty page included. *)
Theorem empty_keyword_matches_every_page
    (page_source : string) (good_keywords : list string) :
  In "" good_keywords ->
  check_generic page_source good_keywords = "OPERATIONAL".
Proof.
  intros Hin. apply check_generic_match. exists "". split; [exact Hin|].
  rewrite lower_empty. apply contains_empty.
Qed.

Lemma empty_keyword_matches_every_page_witness :
  check_generic "" ["all systems operational"; ""] = "OPERATIONAL" /\
  check_generic "major outage" ["all systems operational"; ""] = "OPERATIONAL".
Proof.
  split; apply empty_keyword_matches_every_page; right; left; reflexivity.
Defined.

(* ================================================================= *)
(** ** A run of four cycles

    One target: OPERATIONAL, then OUTAGE DETECTED, then a failed fetch, then
    OUTAGE DETECTED again. Only the second cycle notifies. *)

Example scenario_notifications :
  notifications (events Scenario.run) =
  [SmtpSession "monitor@example.com" "app-password"
     (email_message Samples.config "Internet Archive" "OUTAGE DETECTED"
        (url Samples.archive) "");
   SlackPost "https://hooks.slack.com/services/T/B/X"
     (slack_text "Internet Archive" "OUTAGE DETECTED"
        (url Samples.archive))].
Proof. vm_compute. reflexivity. Qed.

Example scenario_status_changes :
  List.filter is_status_change (events Scenario.run) =
  [Print (StatusChange "OPERATIONAL" "OUTAGE DETECTED")].
Proof. vm_compute. reflexivity. Qed.

Example scenario_store :
  store Scenario.run !! url Samples.archive = Some "OUTAGE DETECTED" /\
  outcome Scenario.run = Unfinished.
Proof. vm_compute. split; reflexivity. Qed.


(* ================================================================= *)
(** ** The check of one target, case by case *)

Lemma classified_not_skipped (target : Target) (w : World) (cur : string) :
  classification target w = Some cur ->
  skipped_by_continue target w = false /\ fetch_interrupt w = None.
Proof.
  unfold classification, skipped_by_continue, fetch_interrupt.
  destruct (driver_get w) as [[]|]; [|discriminate].
  destruct (driver_page_source w); [|discriminate].
  destruct (driver_title w) as [title|]; [|discriminate].
  destruct (contains "just a moment" (lower title)); [discriminate|].
  destruct (String.eqb (mode target) "downdetector"); [now split|].
  destruct (String.eqb (mode target) "generic"); [now split|discriminate].
Qed.


Lemma interrupted_not_classified (target : Target) (w : World) (e : exn) :
  fetch_interrupt w = Some e -> classification target w = None.
Proof.
  unfold classification, fetch_interrupt.
  destruct (driver_get w) as [[]|]; [|reflexivity].
  destruct (driver_page_source w); [|reflexivity].
  destruct (driver_title w); [discriminate|reflexivity].
Qed.

Lemma check_target_eq (config : Config.t) (target : Target) (w : World)
    (st : gmap string string) :
  check_target config target w st = check_result config target w st.
Proof.
  unfold check_result. cbv zeta.
  destruct (skipped_by_continue target w) eqn:Hs.
  - now apply check_target_continue.
  - destruct (fetch_interrupt w) as [e|] eqn:Hi.
    + now apply check_target_interrupted.
    + destruct (classification target w) as [cur|] eqn:Hc.
      * now apply check_target_classified.
      * now apply check_target_fetch_failed.
Qed.








(* ================================================================= *)
(** ** Passes and cycles *)

Section Passes.

Variable config : Config.t.
Variable targets : list Target.
Variable ws : nat -> World.

Hypothesis check_delay_nonneg : (0 <= Config.check_delay config)%Z.





End Passes.

Section Cycles.

Variable config : Config.t.
Variable targets : list Target.
Variable ws : nat -> World.

Hypothesis check_delay_nonneg : (0 <= Config.check_delay config)%Z.
Hypothesis loop_delay_nonneg : (0 <= Config.loop_delay config)%Z.



End Cycles.

(* ================================================================= *)
(** ** The whole of [start_monitoring] *)



(** Once the configuration is valid, [start_monitoring] is its loop between
    the start-up lines and the shutdown lines. *)
Lemma monitor_run (config : Config.t) (targets : list Target)
    (ws : nat -> World) (cycles : nat) (st : gmap string string) :
  ~ email_settings_missing config ->
  let r := monitoring_loop cycles config targets ws 0
             (initial_site_states targets) in
  monitor config targets ws cycles st =
  (final_outcome (outcome r), store r,
   (startup_events config targets ++ events r ++
    shutdown_events (outcome r))%list).
Proof.
  intros Hm. unfold monitor, bind.
  rewrite (validate_passes config st Hm).
  unfold init_site_states, print, emit, try_finally, try_except, bind,
    startup_events, outcome, store, events.
  destruct (monitoring_loop cycles config targets ws 0
              (initial_site_states targets)) as [[c st'] ev].
  cbn [fst snd].
  destruct (truthy (Config.slack_webhook_url config));
    destruct c as [[]| |[]|]; cbn [app final_outcome shutdown_events];
    rewrite <- ?app_assoc, ?app_nil_r; reflexivity.
Qed.




(* ================================================================= *)
(** ** Properties of a whole run *)







Lemma samples_config_valid : ~ email_settings_missing Samples.config.
Proof. intros [H | [H | H]]; discriminate. Qed.







(* ================================================================= *)
(** ** Invariants of [site_states] *)

Section Invariant.

Variable P : gmap string string -> Prop.
Variable config : Config.t.
Variable ws : nat -> World.

Hypothesis check_keeps :
  forall target w st, P st -> P (store (check_target config target w st)).

Lemma for_targets_invariant :
  forall (targets : list Target) (k : nat) (st : gmap string string),
    P st -> P (store (for_targets config targets ws k st)).
Proof.
  induction targets as [|t rest IH]; intros k st Hst; [exact Hst|].
  pose proof (check_keeps t (ws k) st Hst) as Ht.
  rewrite for_targets_step. cbv zeta.
  destruct (outcome (check_target config t (ws k) st)) as [[]| | |];
    cbn [store fst snd]; try exact Ht; now apply IH.
Qed.

Lemma monitoring_loop_invariant (targets : list Target) :
  forall (n k : nat) (st : gmap string string),
    P st -> P (store (monitoring_loop n config targets ws k st)).
Proof.
  induction n as [|n IH]; intros k st Hst; [exact Hst|].
  pose proof (for_targets_invariant targets k st Hst) as Hf.
  cbn [monitoring_loop].
  unfold bind, print, emit, time_sleep, raise, store in *.
  destruct (for_targets config targets ws k st) as [[c st'] ev].
  cbn [fst snd] in Hf.
  destruct c as [[]| | |]; cbn [fst snd]; try exact Hf.
  destruct (Config.loop_delay config <? 0)%Z; [exact Hf|].
  unfold emit. specialize (IH (k + length targets)%nat st' Hf).
  destruct (monitoring_loop n config targets ws (k + length targets) st')
    as [[c' st''] ev'].
  exact IH.
Qed.

End Invariant.

Lemma check_target_dom (config : Config.t) (target : Target) (w : World)
    (st : gmap string string) :
  dom (store (check_target config target w st)) = dom st.
Proof.
  rewrite check_target_eq. unfold check_result. cbv zeta.
  destruct (skipped_by_continue target w); [reflexivity|].
  destruct (fetch_interrupt w); [reflexivity|].
  destruct (classification target w) as [cur|]; [|reflexivity].
  destruct (st !! url target) as [last|] eqn:Hl; [|reflexivity].
  destruct (String.eqb cur last); [reflexivity|].
  destruct (String.eqb last "initial"); cbn [store fst snd];
    apply dom_insert_lookup_L; eauto.
Qed.

Lemma initial_site_states_dom (targets : list Target) :
  dom (initial_site_states targets) = list_to_set (List.map url targets).
Proof.
  apply set_eq. intros u.
  rewrite elem_of_dom, initial_site_states_lookup, elem_of_list_to_set.
  destruct (decide (u ∈ List.map url targets)) as [Hin|Hnin].
  - rewrite bool_decide_eq_true_2 by assumption. split; eauto.
  - rewrite bool_decide_eq_false_2 by assumption.
    split; [intros [? ?]; discriminate | contradiction].
Qed.

Lemma check_downdetector_range (page_source : string) :
  In (check_downdetector page_source)
     ["OPERATIONAL"; "POSSIBLE ISSUES"; "OUTAGE DETECTED";
      "SUSPICIOUS / UNKNOWN"].
Proof.
  unfold check_downdetector.
  destruct (contains "indicate no current problems" page_source);
    [cbn; tauto|].
  destruct (contains "possible problems" page_source); [cbn; tauto|].
  destruct (contains "indicate problems" page_source); cbn; tauto.
Qed.

(** X6. The keys of [site_states] never change: after any number of
    cycles they are the URLs of the targets, as at startup; no check adds
    or removes a key. *)
Theorem site_states_keys_never_change
    (config : Config.t) (targets : list Target) (ws : nat -> World)
    (cycles : nat) (st : gmap string string) :
  ~ email_settings_missing config ->
  dom (store (monitor config targets ws cycles st)) =
  list_to_set (List.map url targets).
Proof.
  intros Hm. rewrite (monitor_run config targets ws cycles st Hm).
  cbv zeta. cbn [store fst snd].
  apply (monitoring_loop_invariant
           (fun s => dom s = list_to_set (List.map url targets))).
  - intros t w s Hs. now rewrite check_target_dom.
  - apply initial_site_states_dom.
Qed.

Lemma site_states_keys_never_change_witness :
  dom (store (monitor Samples.config TARGETS Runs.interrupted 3 ∅)) =
  list_to_set (List.map url TARGETS).
Proof.
  apply site_states_keys_never_change. exact samples_config_valid.
Defined.

Lemma classification_range (target : Target) (w : World) (cur : string) :
  classification target w = Some cur ->
  mode target = "downdetector" /\
  In cur ["OPERATIONAL"; "POSSIBLE ISSUES"; "OUTAGE DETECTED";
          "SUSPICIOUS / UNKNOWN"] \/
  mode target = "generic" /\
  In cur ["OPERATIONAL"; "POTENTIAL OUTAGE"].
Proof.
  unfold classification.
  destruct (driver_get w); [|discriminate].
  destruct (driver_page_source w) as [source|]; [|discriminate].
  destruct (driver_title w) as [title|]; [|discriminate].
  destruct (contains "just a moment" (lower title)); [discriminate|].
  destruct (String.eqb_spec (mode target) "downdetector") as [Hd|_].
  - intros [= <-]. left. split; [exact Hd|].
    apply check_downdetector_range.
  - destruct (String.eqb_spec (mode target) "generic") as [Hg|_];
      [|discriminate].
    intros [= <-]. right. split; [exact Hg|].
    destruct (check_generic_range (lower source)
                (default ["operational"] (good_keywords target)))
      as [-> | ->]; cbn; tauto.
Qed.

Lemma classification_not_initial (target : Target) (w : World)
    (cur : string) :
  classification target w = Some cur ->
  cur <> "initial" /\ In cur status_values.
Proof.
  intros Hc.
  destruct (classification_range target w cur Hc) as [[_ Hin] | [_ Hin]];
    cbn in Hin; unfold status_values;
    intuition (subst; try discriminate; cbn; tauto).
Qed.

(** X7. The status that a check computes is one of the four results of
    [check_downdetector] for a "downdetector" target and one of the two
    results of [check_generic] for a "generic" target; it is never the
    "initial" sentinel, so the entry of a target that was classified once
    is not "initial" afterwards. *)
Theorem classifiers_never_return_initial
    (config : Config.t) (target : Target) (w : World)
    (st : gmap string string) (cur : string) :
  classification target w = Some cur ->
  (mode target = "downdetector" /\
   In cur ["OPERATIONAL"; "POSSIBLE ISSUES"; "OUTAGE DETECTED";
           "SUSPICIOUS / UNKNOWN"] \/
   mode target = "generic" /\
   In cur ["OPERATIONAL"; "POTENTIAL OUTAGE"]) /\
  cur <> "initial" /\
  (is_Some (st !! url target) ->
   store (check_target config target w st) !! url target <> Some "initial").
Proof.
  intros Hc.
  pose proof (classification_range target w cur Hc) as Hr.
  destruct (classification_not_initial target w cur Hc) as [Hi _].
  split; [exact Hr|]. split; [exact Hi|].
  intros [last Hl].
  rewrite (check_target_classified _ _ _ _ cur Hc), Hl.
  destruct (String.eqb_spec cur last) as [<-|Hne].
  - cbn [store fst snd]. rewrite Hl. congruence.
  - destruct (String.eqb last "initial"); cbn [store fst snd];
      rewrite lookup_insert_eq; congruence.
Qed.

Lemma classifiers_never_return_initial_witness :
  "OUTAGE DETECTED" <> "initial" /\
  store (check_target Samples.config Samples.archive Samples.outage
           {[ url Samples.archive := "initial" ]})
    !! url Samples.archive <> Some "initial".
Proof.
  destruct (classifiers_never_return_initial Samples.config Samples.archive
              Samples.outage {[ url Samples.archive := "initial" ]}
              "OUTAGE DETECTED") as (_ & A & B).
  - reflexivity.
  - split; [exact A|]. apply B. exists "initial". reflexivity.
Defined.
